(** * Position Service: the request handlers of [src/app.py]

    The service has three handlers, [make_move] (POST /move),
    [get_fen_info] (POST /fen) and [reset_game] (GET /reset).  Each one
    builds a [chess.Board], queries it and returns a Python dict.  The
    handlers are embedded below as functions over an interface
    [RulesEngine] that lists exactly the calls the handlers make into the
    [chess] package; a concrete engine, [PyChess], follows further down. *)

From Stdlib Require Import ZArith List String Ascii Bool Lia.
Import ListNotations.

Open Scope string_scope.

(** ** Response bodies

    A handler returns a dict literal whose values are booleans, strings or
    a list of strings.  The dict is kept as the ordered list of its
    key/value pairs, in the order the literal lists them. *)

Inductive value : Type :=
| VBool (b : bool)
| VStr (s : string)
| VList (l : list string).

Definition body : Type := list (string * value).

Fixpoint get (k : string) (d : body) : option value :=
  match d with
  | [] => None
  | (k', v) :: d' => if String.eqb k k' then Some v else get k d'
  end.

(** ** Exceptions

    [Ok a] is normal completion with [a]; [Raise e] is an exception that
    leaves the function.  For a handler, [Raise e] means the exception
    reaches the web framework, which answers with a server error and no
    body of the handler's own. *)

Inductive exn : Type :=
| ValueError
| InvalidMoveError.

Inductive except (A : Type) : Type :=
| Ok (a : A)
| Raise (e : exn).

Arguments Ok {A} a.
Arguments Raise {A} e.

(** ** Request models ([MoveRequest], [FenRequest]) *)

Record MoveRequest : Type := mkMoveRequest {
  mr_fen : string;
  mr_move : string   (* UCI format, e.g. "e2e4" *)
}.

Record FenRequest : Type := mkFenRequest {
  fr_fen : string
}.

(** ** The rules engine as the handlers see it

    One field per call that [src/app.py] makes into [chess]:
    - [Board_new s] is [chess.Board(s)], which raises on a malformed FEN;
    - [Board_init] is [chess.Board()];
    - [Move_from_uci s] is [chess.Move.from_uci(s)], which raises on a
      malformed move string;
    - [legal_moves_contains b m] is [m in b.legal_moves];
    - [legal_moves_iter b] is the sequence [b.legal_moves] iterates over;
    - [Board_push b m] is the state of the board object after
      [b.push(m)];
    - [Board_fen b] is [b.fen()], which raises when a move counter of
      the board is too long for the interpreter to write as text;
    - [Board_is_check], [Board_is_checkmate], [Board_is_stalemate],
      [Board_is_game_over] and [Move_uci] are the queries of the same
      names.
    [Board_turn] (the attribute [board.turn], [true] for white) is not
    read by the handlers; it is there to state which side is to move.
    [Board_init_fen_ok] records that the starting board, whose counters
    are 0 and 1, can always be written. *)

Class RulesEngine : Type := {
  BoardT : Type;
  MoveT : Type;
  Board_new : string -> except BoardT;
  Board_init : BoardT;
  Move_from_uci : string -> except MoveT;
  Move_uci : MoveT -> string;
  legal_moves_contains : BoardT -> MoveT -> bool;
  legal_moves_iter : BoardT -> list MoveT;
  Board_push : BoardT -> MoveT -> BoardT;
  Board_fen : BoardT -> except string;
  Board_turn : BoardT -> bool;
  Board_is_check : BoardT -> bool;
  Board_is_checkmate : BoardT -> bool;
  Board_is_stalemate : BoardT -> bool;
  Board_is_game_over : BoardT -> bool;
  Board_init_fen_ok : exists fen, Board_fen Board_init = Ok fen
}.

Section Handlers.

Context {E : RulesEngine}.

(** The five entries every full response ends with: the comprehension
    [[m.uci() for m in board.legal_moves]] and the four state queries,
    all read from the one board object [board]. *)

Definition state_fields (board : BoardT) : body :=
  [ ("legal_moves", VList (map Move_uci (legal_moves_iter board)));
    ("is_check", VBool (Board_is_check board));
    ("is_checkmate", VBool (Board_is_checkmate board));
    ("is_stalemate", VBool (Board_is_stalemate board));
    ("is_game_over", VBool (Board_is_game_over board)) ].

(** How control leaves the [try] block of [make_move] (lines 33-47), with
    the state of the mutable [board] object at that point:
    the [return] inside the [if] is reached, or the [if] is not taken, or
    an exception is caught by [except Exception: pass].  Two calls of the
    block can raise: [Move.from_uci], before the board is touched, and
    [board.fen()], the first entry of the dict literal, after
    [board.push(move)] has changed the board. *)

Inductive try_exit : Type :=
| Returned (response : body)
| FellThrough (board : BoardT)
| Caught (e : exn) (board : BoardT).

Definition make_move_try (req : MoveRequest) (board : BoardT) : try_exit :=
  match Move_from_uci (mr_move req) with
  | Raise e => Caught e board
  | Ok move =>
      if legal_moves_contains board move then
        let board := Board_push board move in
        match Board_fen board with
        | Raise e => Caught e board
        | Ok fen =>
            Returned
              (("fen", VStr fen)
                 :: ("valid", VBool true) :: state_fields board)
        end
      else FellThrough board
  end.

(** [make_move]: the board is parsed before the [try], so a failure there
    leaves the handler; after the [try] the fallback response is built
    from the same board object, in the state the [try] block left it. *)

Definition make_move (req : MoveRequest) : except body :=
  match Board_new (mr_fen req) with
  | Raise e => Raise e
  | Ok board =>
      match make_move_try req board with
      | Returned response => Ok response
      | FellThrough board | Caught _ board =>
          Ok (("fen", VStr (mr_fen req))
                :: ("valid", VBool false) :: state_fields board)
      end
  end.

(** [get_fen_info]: the board is parsed inside the [try]; any exception
    is answered with the two-entry error dict. *)

Definition get_fen_info (req : FenRequest) : except body :=
  match Board_new (fr_fen req) with
  | Ok board => Ok (("valid", VBool true) :: state_fields board)
  | Raise _ => Ok [ ("valid", VBool false); ("error", VStr "Invalid FEN") ]
  end.

(** [reset_game]: no [try]; the four flags are the literals [False]. *)

Definition reset_game : except body :=
  let board := Board_init in
  match Board_fen board with
  | Raise e => Raise e
  | Ok fen =>
      Ok [ ("fen", VStr fen);
           ("legal_moves", VList (map Move_uci (legal_moves_iter board)));
           ("is_check", VBool false);
           ("is_checkmate", VBool false);
           ("is_stalemate", VBool false);
           ("is_game_over", VBool false) ]
  end.

(** [reset_game] as the specification glosses it: the four flags queried
    from the freshly built starting board instead of written as
    constants.  Only used to compare with [reset_game]. *)

Definition reset_game_queried : except body :=
  let board := Board_init in
  match Board_fen board with
  | Raise e => Raise e
  | Ok fen => Ok (("fen", VStr fen) :: state_fields board)
  end.

(** The three routes of the service. *)

Inductive request : Type :=
| PostMove (req : MoveRequest)
| PostFen (req : FenRequest)
| GetReset.

Definition handle (r : request) : except body :=
  match r with
  | PostMove req => make_move req
  | PostFen req => get_fen_info req
  | GetReset => reset_game
  end.

(** ** The handlers on the heap of board objects

    A [chess.Board] is a mutable object: [chess.Board(...)] allocates a
    new one, [board.push(move)] changes it in place, and the queries read
    it.  Here the handlers are written once more with that made explicit:
    the heap is the list of the board objects allocated so far, a
    reference is an index into it, and a handler takes the heap it finds
    and returns the heap it leaves.  A run of the service threads one
    heap through all its requests. *)

Definition heap : Type := list BoardT.

Definition new_object (b : BoardT) (h : heap) : nat * heap :=
  (List.length h, (h ++ [b])%list).

Definition object (h : heap) (ref : nat) : BoardT := nth ref h Board_init.

Definition set_object (ref : nat) (b : BoardT) (h : heap) : heap :=
  (firstn ref h ++ b :: skipn (S ref) h)%list.

Definition make_move_on (req : MoveRequest) (h : heap) : except body * heap :=
  match Board_new (mr_fen req) with
  | Raise e => (Raise e, h)
  | Ok b =>
      let '(board, h) := new_object b h in
      let '(returned, h) :=
        match Move_from_uci (mr_move req) with
        | Raise _ => (None, h)
        | Ok move =>
            if legal_moves_contains (object h board) move then
              let h := set_object board (Board_push (object h board) move) h in
              match Board_fen (object h board) with
              | Raise _ => (None, h)
              | Ok fen =>
                  (Some (("fen", VStr fen)
                           :: ("valid", VBool true)
                           :: state_fields (object h board)), h)
              end
            else (None, h)
        end in
      match returned with
      | Some response => (Ok response, h)
      | None =>
          (Ok (("fen", VStr (mr_fen req))
                 :: ("valid", VBool false)
                 :: state_fields (object h board)), h)
      end
  end.

Definition get_fen_info_on (req : FenRequest) (h : heap) : except body * heap :=
  match Board_new (fr_fen req) with
  | Ok b =>
      let '(board, h) := new_object b h in
      (Ok (("valid", VBool true) :: state_fields (object h board)), h)
  | Raise _ =>
      (Ok [ ("valid", VBool false); ("error", VStr "Invalid FEN") ], h)
  end.

Definition reset_game_on (h : heap) : except body * heap :=
  let '(board, h) := new_object Board_init h in
  match Board_fen (object h board) with
  | Raise e => (Raise e, h)
  | Ok fen =>
      (Ok [ ("fen", VStr fen);
            ("legal_moves",
             VList (map Move_uci (legal_moves_iter (object h board))));
            ("is_check", VBool false);
            ("is_checkmate", VBool false);
            ("is_stalemate", VBool false);
            ("is_game_over", VBool false) ], h)
  end.

Definition handle_on (r : request) (h : heap) : except body * heap :=
  match r with
  | PostMove req => make_move_on req h
  | PostFen req => get_fen_info_on req h
  | GetReset => reset_game_on h
  end.

(** A run of the service: the responses to a sequence of requests, in
    order, and the heap at the end. *)
Fixpoint serve_on (trace : list request) (h : heap)
    : list (except body) * heap :=
  match trace with
  | [] => ([], h)
  | r :: trace' =>
      let '(response, h) := handle_on r h in
      let '(responses, h) := serve_on trace' h in
      (response :: responses, h)
  end.

(** What a response says about terminal positions: [is_checkmate: true]
    and [is_stalemate: true] each come with [is_game_over: true] and an
    empty [legal_moves]. *)

Definition terminal_consistent (response : body) : Prop :=
  (get "is_checkmate" response = Some (VBool true) ->
   get "is_game_over" response = Some (VBool true)
   /\ get "legal_moves" response = Some (VList []))
  /\ (get "is_stalemate" response = Some (VBool true) ->
      get "is_game_over" response = Some (VBool true)
      /\ get "legal_moves" response = Some (VList [])).

(** The keys of a response, in the order of the dict literal, and the
    five keys that [state_fields] contributes. *)
Definition keys (response : body) : list string := map fst response.

Definition state_keys : list string :=
  ["legal_moves"; "is_check"; "is_checkmate"; "is_stalemate"; "is_game_over"].

End Handlers.

(** The contract of the engine that the handlers' properties lean on.
    Each law is a documented behaviour of [chess.Board]:
    - a checkmate or a stalemate is a position without legal moves, and a
      position without legal moves is over;
    - [push] of a legal move hands the move to the other side;
    - the side to move can be read back from the FEN text: two boards
      with different sides to move never share a FEN that parses. *)

Class RulesEngineLaws (E : RulesEngine) : Prop := {
  checkmate_no_moves : forall b,
    Board_is_checkmate b = true -> legal_moves_iter b = [];
  stalemate_no_moves : forall b,
    Board_is_stalemate b = true -> legal_moves_iter b = [];
  no_moves_game_over : forall b,
    legal_moves_iter b = [] -> Board_is_game_over b = true;
  push_turn : forall b m,
    legal_moves_contains b m = true ->
    Board_turn (Board_push b m) = negb (Board_turn b);
  fen_turn : forall s b b',
    Board_new s = Ok b -> Board_fen b' = Ok s -> Board_turn b' = Board_turn b
}.

(** Two more laws of the engine, on how check relates to the two
    terminal flags: a checkmate is a check, a stalemate is not. *)

Class RulesEngineCheckLaws (E : RulesEngine) : Prop := {
  checkmate_in_check : forall b,
    Board_is_checkmate b = true -> Board_is_check b = true;
  stalemate_not_in_check : forall b,
    Board_is_stalemate b = true -> Board_is_check b = false
}.

(** * The rules engine

    Modelled from the spec: the rules engine is the external package
    [chess] (python-chess), which [src/app.py] imports and which is not
    part of the repository.  The specification treats it as the provider
    of "chess rules": FEN parsing and serialization, legal move generation
    and the check, checkmate, stalemate and game-over queries.  [PyChess]
    gives those rules in the shape the package has them: bitboards are
    Python integers (here [Z], whose bit operations are the same
    two's-complement ones), squares are the integers 0..63 with a1 = 0 and
    h8 = 63, colours are booleans with white = [true].  Strings are
    sequences of ASCII characters; what the package does with text
    outside ASCII is not modelled. *)

Module PyChess.

Local Open Scope Z_scope.

Definition Color : Type := bool.
Definition WHITE : Color := true.
Definition BLACK : Color := false.

Inductive PieceType : Type := PAWN | KNIGHT | BISHOP | ROOK | QUEEN | KING.

Definition PieceType_eqb (a b : PieceType) : bool :=
  match a, b with
  | PAWN, PAWN | KNIGHT, KNIGHT | BISHOP, BISHOP
  | ROOK, ROOK | QUEEN, QUEEN | KING, KING => true
  | _, _ => false
  end.

Definition Square : Type := Z.
Definition Bitboard : Type := Z.

Infix ".&" := Z.land (at level 40, left associativity).
Infix ".^" := Z.lxor (at level 45, left associativity).
Infix ".|" := Z.lor (at level 50, left associativity).
Infix "<<" := Z.shiftl (at level 33, left associativity).
Infix ">>" := Z.shiftr (at level 33, left associativity).

(** Truth value of a Python integer. *)
Definition nz (x : Z) : bool := negb (x =? 0).

Definition square_file (square : Square) : Z := square .& 7.
Definition square_rank (square : Square) : Z := square >> 3.

Definition square_distance (a b : Square) : Z :=
  Z.max (Z.abs (square_file a - square_file b))
        (Z.abs (square_rank a - square_rank b)).

Definition BB_EMPTY : Bitboard := 0.
Definition BB_ALL : Bitboard := 0xffffffffffffffff.
Definition BB_SQUARES (square : Square) : Bitboard := 1 << square.

Definition BB_LIGHT_SQUARES : Bitboard := 0x55aa55aa55aa55aa.
Definition BB_DARK_SQUARES : Bitboard := 0xaa55aa55aa55aa55.

Definition BB_FILE_A : Bitboard := 0x0101010101010101.
Definition BB_FILES (file : Z) : Bitboard := BB_FILE_A << file.
Definition BB_RANK_1 : Bitboard := 0xff.
Definition BB_RANKS (rank : Z) : Bitboard := BB_RANK_1 << (8 * rank).

Definition BB_FILE_C := BB_FILES 2.
Definition BB_FILE_D := BB_FILES 3.
Definition BB_FILE_F := BB_FILES 5.
Definition BB_FILE_G := BB_FILES 6.
Definition BB_FILE_H := BB_FILES 7.
Definition BB_RANK_3 := BB_RANKS 2.
Definition BB_RANK_4 := BB_RANKS 3.
Definition BB_RANK_5 := BB_RANKS 4.
Definition BB_RANK_6 := BB_RANKS 5.
Definition BB_RANK_8 := BB_RANKS 7.

Definition A1 : Square := 0.
Definition C1 : Square := 2.
Definition D1 : Square := 3.
Definition E1 : Square := 4.
Definition F1 : Square := 5.
Definition G1 : Square := 6.
Definition H1 : Square := 7.
Definition A8 : Square := 56.
Definition C8 : Square := 58.
Definition D8 : Square := 59.
Definition E8 : Square := 60.
Definition F8 : Square := 61.
Definition G8 : Square := 62.
Definition H8 : Square := 63.

(** [int.bit_length], [msb], [lsb], [popcount] and [scan_reversed]
    (the squares of a bitboard from the highest down). *)

Definition bit_length (n : Z) : Z :=
  if n =? 0 then 0 else Z.log2 (Z.abs n) + 1.

Definition msb (bb : Bitboard) : Z := bit_length bb - 1.
Definition lsb (bb : Bitboard) : Z := bit_length (bb .& (- bb)) - 1.

Fixpoint scan_reversed_fuel (fuel : nat) (bb : Bitboard) : list Square :=
  match fuel with
  | O => []
  | S fuel' =>
      if nz bb then
        let r := bit_length bb - 1 in
        r :: scan_reversed_fuel fuel' (bb .^ BB_SQUARES r)
      else []
  end.

Definition scan_reversed (bb : Bitboard) : list Square :=
  scan_reversed_fuel 64 bb.

Definition popcount (bb : Bitboard) : Z :=
  Z.of_nat (List.length (scan_reversed bb)).

(** ** Attack sets *)

Fixpoint slide (fuel : nat) (sq delta : Z) (occupied : Bitboard) : Bitboard :=
  match fuel with
  | O => BB_EMPTY
  | S fuel' =>
      let sq := sq + delta in
      if negb ((0 <=? sq) && (sq <? 64))
         || (2 <? square_distance sq (sq - delta))
      then BB_EMPTY
      else
        BB_SQUARES sq
        .| (if nz (occupied .& BB_SQUARES sq) then BB_EMPTY
            else slide fuel' sq delta occupied)
  end.

Definition _sliding_attacks (square : Square) (occupied : Bitboard)
    (deltas : list Z) : Bitboard :=
  fold_left (fun attacks delta => attacks .| slide 8 square delta occupied)
            deltas BB_EMPTY.

Definition _step_attacks (square : Square) (deltas : list Z) : Bitboard :=
  _sliding_attacks square BB_ALL deltas.

Definition BB_KNIGHT_ATTACKS (sq : Square) : Bitboard :=
  _step_attacks sq [17; 15; 10; 6; -17; -15; -10; -6].
Definition BB_KING_ATTACKS (sq : Square) : Bitboard :=
  _step_attacks sq [9; 8; 7; 1; -9; -8; -7; -1].
Definition BB_PAWN_ATTACKS (color : Color) (sq : Square) : Bitboard :=
  _step_attacks sq (if color then [7; 9] else [-7; -9]).

Definition _edges (square : Square) : Bitboard :=
  ((BB_RANK_1 .| BB_RANK_8) .& Z.lnot (BB_RANKS (square_rank square)))
  .| ((BB_FILE_A .| BB_FILE_H) .& Z.lnot (BB_FILES (square_file square))).

Definition diag_deltas : list Z := [-9; -7; 7; 9].
Definition file_deltas : list Z := [-8; 8].
Definition rank_deltas : list Z := [-1; 1].

(** The attack tables: [BB_X_MASKS sq] is the relevant occupancy of the
    line, [BB_X_ATTACKS sq occ] the entry the table holds for the subset
    [occ] of that mask. *)

Definition attack_mask (deltas : list Z) (square : Square) : Bitboard :=
  _sliding_attacks square 0 deltas .& Z.lnot (_edges square).

Definition BB_DIAG_MASKS := attack_mask diag_deltas.
Definition BB_FILE_MASKS := attack_mask file_deltas.
Definition BB_RANK_MASKS := attack_mask rank_deltas.

Definition BB_DIAG_ATTACKS (sq : Square) (subset : Bitboard) : Bitboard :=
  _sliding_attacks sq subset diag_deltas.
Definition BB_FILE_ATTACKS (sq : Square) (subset : Bitboard) : Bitboard :=
  _sliding_attacks sq subset file_deltas.
Definition BB_RANK_ATTACKS (sq : Square) (subset : Bitboard) : Bitboard :=
  _sliding_attacks sq subset rank_deltas.

Definition ray (a b : Square) : Bitboard :=
  let bb_a := BB_SQUARES a in
  let bb_b := BB_SQUARES b in
  if nz (BB_DIAG_ATTACKS a 0 .& bb_b) then
    (BB_DIAG_ATTACKS a 0 .& BB_DIAG_ATTACKS b 0) .| bb_a .| bb_b
  else if nz (BB_RANK_ATTACKS a 0 .& bb_b) then
    BB_RANK_ATTACKS a 0 .| bb_a
  else if nz (BB_FILE_ATTACKS a 0 .& bb_b) then
    BB_FILE_ATTACKS a 0 .| bb_a
  else BB_EMPTY.

Definition between (a b : Square) : Bitboard :=
  let bb := ray a b .& ((BB_ALL << a) .^ (BB_ALL << b)) in
  bb .& (bb - 1).

(** ** Moves *)

Record Move : Type := mkMove {
  from_square : Square;
  to_square : Square;
  promotion : option PieceType;
  drop : option PieceType
}.

Definition Move_ (from_square to_square : Square) : Move :=
  mkMove from_square to_square None None.

Definition Move_promo (from_square to_square : Square) (p : PieceType) : Move :=
  mkMove from_square to_square (Some p) None.

Definition Move_null : Move := Move_ 0 0.

Definition option_PieceType_eqb (a b : option PieceType) : bool :=
  match a, b with
  | None, None => true
  | Some x, Some y => PieceType_eqb x y
  | _, _ => false
  end.

Definition Move_eqb (a b : Move) : bool :=
  (from_square a =? from_square b) && (to_square a =? to_square b)
  && option_PieceType_eqb (promotion a) (promotion b)
  && option_PieceType_eqb (drop a) (drop b).

Definition is_some {A : Type} (o : option A) : bool :=
  match o with Some _ => true | None => false end.

(** [Move.__bool__]: every move but the null move is true. *)
Definition Move_bool (m : Move) : bool :=
  nz (from_square m) || nz (to_square m)
  || is_some (promotion m) || is_some (drop m).

Definition piece_symbol (p : PieceType) : ascii :=
  match p with
  | PAWN => "p" | KNIGHT => "n" | BISHOP => "b"
  | ROOK => "r" | QUEEN => "q" | KING => "k"
  end%char.

(** [PIECE_SYMBOLS.index(c)] for a one-character string [c]. *)
Definition piece_of_symbol (c : ascii) : option PieceType :=
  match c with
  | "p" => Some PAWN | "n" => Some KNIGHT | "b" => Some BISHOP
  | "r" => Some ROOK | "q" => Some QUEEN | "k" => Some KING
  | _ => None
  end%char.

Definition is_upper (c : ascii) : bool :=
  let n := nat_of_ascii c in (65 <=? n)%nat && (n <=? 90)%nat.

Definition lower (c : ascii) : ascii :=
  if is_upper c then ascii_of_nat (nat_of_ascii c + 32) else c.

Definition upper (c : ascii) : ascii :=
  let n := nat_of_ascii c in
  if (97 <=? n)%nat && (n <=? 122)%nat then ascii_of_nat (n - 32) else c.

Definition FILE_NAMES (file : Z) : ascii := ascii_of_nat (97 + Z.to_nat file).
Definition RANK_NAMES (rank : Z) : ascii := ascii_of_nat (49 + Z.to_nat rank).

Definition SQUARE_NAMES (square : Square) : string :=
  String (FILE_NAMES (square_file square))
         (String (RANK_NAMES (square_rank square)) EmptyString).

(** [SQUARE_NAMES.index(s)]; [None] stands for the [ValueError]. *)
Definition SQUARE_NAMES_index (s : string) : option Square :=
  match s with
  | String f (String r EmptyString) =>
      let fi := nat_of_ascii f in
      let ri := nat_of_ascii r in
      if (97 <=? fi)%nat && (fi <=? 104)%nat
         && (49 <=? ri)%nat && (ri <=? 56)%nat
      then Some (Z.of_nat (ri - 49) * 8 + Z.of_nat (fi - 97))
      else None
  | _ => None
  end.

Definition uci (m : Move) : string :=
  match drop m with
  | Some d =>
      String (upper (piece_symbol d))
             (String "@"%char (SQUARE_NAMES (to_square m)))
  | None =>
      match promotion m with
      | Some p =>
          (SQUARE_NAMES (from_square m) ++ SQUARE_NAMES (to_square m)
           ++ String (piece_symbol p) EmptyString)%string
      | None =>
          if Move_bool m
          then (SQUARE_NAMES (from_square m) ++ SQUARE_NAMES (to_square m))%string
          else "0000"%string
      end
  end.

(** [s[i]] and the slices [s[i:i+2]] that [from_uci] takes. *)
Definition char_at (s : string) (i : nat) : ascii :=
  match String.get i s with
  | Some c => c
  | None => Ascii.zero
  end.

Definition from_uci (uci : string) : except Move :=
  let len := String.length uci in
  if String.eqb uci "0000" then Ok Move_null
  else if (len =? 4)%nat && Ascii.eqb "@" (char_at uci 1) then
    match piece_of_symbol (lower (char_at uci 0)),
          SQUARE_NAMES_index (substring 2 2 uci) with
    | Some d, Some square => Ok (mkMove square square None (Some d))
    | _, _ => Raise InvalidMoveError
    end
  else if (4 <=? len)%nat && (len <=? 5)%nat then
    match SQUARE_NAMES_index (substring 0 2 uci),
          SQUARE_NAMES_index (substring 2 2 uci),
          (if (len =? 5)%nat
           then option_map Some (piece_of_symbol (char_at uci 4))
           else Some None) with
    | Some from_square, Some to_square, Some promotion =>
        if from_square =? to_square then Raise InvalidMoveError
        else Ok (mkMove from_square to_square promotion None)
    | _, _, _ => Raise InvalidMoveError
    end
  else Raise InvalidMoveError.

(** ** Board state

    [BaseBoard] holds the piece bitboards; [Board] adds the side to move,
    the castling rights, the en passant square, the two clocks and the
    move stack. *)

Record BaseBoard : Type := mkBaseBoard {
  pawns : Bitboard;
  knights : Bitboard;
  bishops : Bitboard;
  rooks : Bitboard;
  queens : Bitboard;
  kings : Bitboard;
  promoted : Bitboard;
  occupied_white : Bitboard;
  occupied_black : Bitboard;
  occupied : Bitboard
}.

Definition occupied_co (b : BaseBoard) (color : Color) : Bitboard :=
  if color then occupied_white b else occupied_black b.

Definition _clear_board : BaseBoard :=
  mkBaseBoard 0 0 0 0 0 0 0 0 0 0.

Definition piece_type_at (b : BaseBoard) (square : Square) : option PieceType :=
  let mask := BB_SQUARES square in
  if negb (nz (occupied b .& mask)) then None
  else if nz (pawns b .& mask) then Some PAWN
  else if nz (knights b .& mask) then Some KNIGHT
  else if nz (bishops b .& mask) then Some BISHOP
  else if nz (rooks b .& mask) then Some ROOK
  else if nz (queens b .& mask) then Some QUEEN
  else Some KING.

Definition color_at (b : BaseBoard) (square : Square) : option Color :=
  let mask := BB_SQUARES square in
  if nz (occupied_white b .& mask) then Some WHITE
  else if nz (occupied_black b .& mask) then Some BLACK
  else None.

(** [upd_piece f p b]: the bitboard of piece type [p] replaced by its
    image under [f]. *)
Definition upd_piece (f : Bitboard -> Bitboard) (p : PieceType) (b : BaseBoard)
    : BaseBoard :=
  match p with
  | PAWN => mkBaseBoard (f (pawns b)) (knights b) (bishops b) (rooks b)
      (queens b) (kings b) (promoted b) (occupied_white b) (occupied_black b)
      (occupied b)
  | KNIGHT => mkBaseBoard (pawns b) (f (knights b)) (bishops b) (rooks b)
      (queens b) (kings b) (promoted b) (occupied_white b) (occupied_black b)
      (occupied b)
  | BISHOP => mkBaseBoard (pawns b) (knights b) (f (bishops b)) (rooks b)
      (queens b) (kings b) (promoted b) (occupied_white b) (occupied_black b)
      (occupied b)
  | ROOK => mkBaseBoard (pawns b) (knights b) (bishops b) (f (rooks b))
      (queens b) (kings b) (promoted b) (occupied_white b) (occupied_black b)
      (occupied b)
  | QUEEN => mkBaseBoard (pawns b) (knights b) (bishops b) (rooks b)
      (f (queens b)) (kings b) (promoted b) (occupied_white b) (occupied_black b)
      (occupied b)
  | KING => mkBaseBoard (pawns b) (knights b) (bishops b) (rooks b)
      (queens b) (f (kings b)) (promoted b) (occupied_white b) (occupied_black b)
      (occupied b)
  end.

Definition _remove_piece_at (b : BaseBoard) (square : Square)
    : option PieceType * BaseBoard :=
  match piece_type_at b square with
  | None => (None, b)
  | Some piece_type =>
      let mask := BB_SQUARES square in
      let b := upd_piece (fun bb => bb .^ mask) piece_type b in
      (Some piece_type,
       mkBaseBoard (pawns b) (knights b) (bishops b) (rooks b) (queens b)
         (kings b)
         (promoted b .& Z.lnot mask)
         (occupied_white b .& Z.lnot mask)
         (occupied_black b .& Z.lnot mask)
         (occupied b .^ mask))
  end.

Definition _set_piece_at (b : BaseBoard) (square : Square)
    (piece_type : PieceType) (color : Color) (is_promoted : bool) : BaseBoard :=
  let b := snd (_remove_piece_at b square) in
  let mask := BB_SQUARES square in
  let b := upd_piece (fun bb => bb .| mask) piece_type b in
  mkBaseBoard (pawns b) (knights b) (bishops b) (rooks b) (queens b) (kings b)
    (if is_promoted then promoted b .^ mask else promoted b)
    (if color then occupied_white b .^ mask else occupied_white b)
    (if color then occupied_black b else occupied_black b .^ mask)
    (occupied b .^ mask).

Definition king (b : BaseBoard) (color : Color) : option Square :=
  let king_mask := occupied_co b color .& kings b .& Z.lnot (promoted b) in
  if nz king_mask then Some (msb king_mask) else None.

Record Board : Type := mkBoard {
  base :> BaseBoard;
  turn : Color;
  castling_rights : Bitboard;
  ep_square : option Square;
  halfmove_clock : Z;
  fullmove_number : Z;
  move_stack : list Move
}.

(** ** Attacks and pins *)

Definition attacks_mask (b : BaseBoard) (square : Square) : Bitboard :=
  let bb_square := BB_SQUARES square in
  if nz (bb_square .& pawns b) then
    let color := nz (bb_square .& occupied_co b WHITE) in
    BB_PAWN_ATTACKS color square
  else if nz (bb_square .& knights b) then BB_KNIGHT_ATTACKS square
  else if nz (bb_square .& kings b) then BB_KING_ATTACKS square
  else
    let attacks :=
      if nz (bb_square .& bishops b) || nz (bb_square .& queens b)
      then BB_DIAG_ATTACKS square (BB_DIAG_MASKS square .& occupied b)
      else 0 in
    if nz (bb_square .& rooks b) || nz (bb_square .& queens b)
    then attacks
         .| (BB_RANK_ATTACKS square (BB_RANK_MASKS square .& occupied b)
             .| BB_FILE_ATTACKS square (BB_FILE_MASKS square .& occupied b))
    else attacks.

Definition _attackers_mask (b : BaseBoard) (color : Color) (square : Square)
    (occupied : Bitboard) : Bitboard :=
  let rank_pieces := BB_RANK_MASKS square .& occupied in
  let file_pieces := BB_FILE_MASKS square .& occupied in
  let diag_pieces := BB_DIAG_MASKS square .& occupied in
  let queens_and_rooks := queens b .| rooks b in
  let queens_and_bishops := queens b .| bishops b in
  let attackers :=
    (BB_KING_ATTACKS square .& kings b)
    .| (BB_KNIGHT_ATTACKS square .& knights b)
    .| (BB_RANK_ATTACKS square rank_pieces .& queens_and_rooks)
    .| (BB_FILE_ATTACKS square file_pieces .& queens_and_rooks)
    .| (BB_DIAG_ATTACKS square diag_pieces .& queens_and_bishops)
    .| (BB_PAWN_ATTACKS (negb color) square .& pawns b) in
  attackers .& occupied_co b color.

Definition attackers_mask (b : BaseBoard) (color : Color) (square : Square)
    : Bitboard :=
  _attackers_mask b color square (occupied b).

Definition is_attacked_by (b : BaseBoard) (color : Color) (square : Square)
    : bool :=
  nz (attackers_mask b color square).

Definition pin_mask (b : BaseBoard) (color : Color) (square : Square)
    : Bitboard :=
  match king b color with
  | None => BB_ALL
  | Some king =>
      let square_mask := BB_SQUARES square in
      let line (attacks : Square -> Bitboard -> Bitboard) (sliders : Bitboard)
               (next : Bitboard) : Bitboard :=
        let rays := attacks king 0 in
        if nz (rays .& square_mask) then
          let snipers := rays .& sliders .& occupied_co b (negb color) in
          match
            find (fun sniper =>
                    between sniper king .& (occupied b .| square_mask)
                    =? square_mask)
                 (scan_reversed snipers)
          with
          | Some sniper => ray king sniper
          | None => BB_ALL
          end
        else next in
      line BB_FILE_ATTACKS (rooks b .| queens b)
        (line BB_RANK_ATTACKS (rooks b .| queens b)
           (line BB_DIAG_ATTACKS (bishops b .| queens b) BB_ALL))
  end.

(** ** Castling rights *)

Definition clean_castling_rights (b : Board) : Bitboard :=
  match move_stack b with
  | _ :: _ => castling_rights b
  | [] =>
      let castling := castling_rights b .& rooks b in
      let white_castling := castling .& BB_RANK_1 .& occupied_co b WHITE in
      let black_castling := castling .& BB_RANK_8 .& occupied_co b BLACK in
      let white_castling := white_castling .& (BB_SQUARES A1 .| BB_SQUARES H1) in
      let black_castling := black_castling .& (BB_SQUARES A8 .| BB_SQUARES H8) in
      let white_castling :=
        if negb (nz (occupied_co b WHITE .& kings b .& Z.lnot (promoted b)
                     .& BB_SQUARES E1))
        then 0 else white_castling in
      let black_castling :=
        if negb (nz (occupied_co b BLACK .& kings b .& Z.lnot (promoted b)
                     .& BB_SQUARES E8))
        then 0 else black_castling in
      white_castling .| black_castling
  end.

(** [_from_chess960] and [_to_chess960] for a standard (not Chess960)
    board: castling is written king-to-g/c outside and king-to-rook
    inside. *)

Definition _from_chess960 (b : Board) (from_square to_square : Square)
    (promotion drop : option PieceType) : Move :=
  let plain := mkMove from_square to_square promotion drop in
  if negb (is_some promotion) && negb (is_some drop) then
    if (from_square =? E1) && nz (kings b .& BB_SQUARES E1) then
      if to_square =? H1 then Move_ E1 G1
      else if to_square =? A1 then Move_ E1 C1
      else plain
    else if (from_square =? E8) && nz (kings b .& BB_SQUARES E8) then
      if to_square =? H8 then Move_ E8 G8
      else if to_square =? A8 then Move_ E8 C8
      else plain
    else plain
  else plain.

Definition _to_chess960 (b : Board) (move : Move) : Move :=
  if (from_square move =? E1) && nz (kings b .& BB_SQUARES E1) then
    if (to_square move =? G1) && negb (nz (rooks b .& BB_SQUARES G1))
    then Move_ E1 H1
    else if (to_square move =? C1) && negb (nz (rooks b .& BB_SQUARES C1))
    then Move_ E1 A1
    else move
  else if (from_square move =? E8) && nz (kings b .& BB_SQUARES E8) then
    if (to_square move =? G8) && negb (nz (rooks b .& BB_SQUARES G8))
    then Move_ E8 H8
    else if (to_square move =? C8) && negb (nz (rooks b .& BB_SQUARES C8))
    then Move_ E8 A8
    else move
  else move.

(** ** Pseudo-legal move generation

    Generators are lists, in the order the package yields. *)

Definition _attacked_for_king (b : Board) (path occupied : Bitboard) : bool :=
  existsb (fun sq => nz (_attackers_mask b (negb (turn b)) sq occupied))
          (scan_reversed path).

Definition generate_castling_moves (b : Board) (from_mask to_mask : Bitboard)
    : list Move :=
  let backrank := if turn b then BB_RANK_1 else BB_RANK_8 in
  let king :=
    occupied_co b (turn b) .& kings b .& Z.lnot (promoted b)
    .& backrank .& from_mask in
  let king := king .& (- king) in
  if negb (nz king) then []
  else
    let bb_c := BB_FILE_C .& backrank in
    let bb_d := BB_FILE_D .& backrank in
    let bb_f := BB_FILE_F .& backrank in
    let bb_g := BB_FILE_G .& backrank in
    flat_map
      (fun candidate =>
         let rook := BB_SQUARES candidate in
         let a_side := rook <? king in
         let king_to := if a_side then bb_c else bb_g in
         let rook_to := if a_side then bb_d else bb_f in
         let king_path := between (msb king) (msb king_to) in
         let rook_path := between candidate (msb rook_to) in
         if negb
              (nz ((occupied b .^ king .^ rook)
                   .& (king_path .| rook_path .| king_to .| rook_to))
               || _attacked_for_king b (king_path .| king) (occupied b .^ king)
               || _attacked_for_king b king_to
                    (occupied b .^ king .^ rook .^ rook_to))
         then [_from_chess960 b (msb king) candidate None None]
         else [])
      (scan_reversed (clean_castling_rights b .& backrank .& to_mask)).

Definition pawn_moves_to (from_square to_square : Square) : list Move :=
  if (square_rank to_square =? 0) || (square_rank to_square =? 7) then
    [ Move_promo from_square to_square QUEEN;
      Move_promo from_square to_square ROOK;
      Move_promo from_square to_square BISHOP;
      Move_promo from_square to_square KNIGHT ]
  else [ Move_ from_square to_square ].

Definition generate_pseudo_legal_ep (b : Board) (from_mask to_mask : Bitboard)
    : list Move :=
  match ep_square b with
  | None => []
  | Some ep =>
      if negb (nz ep) || negb (nz (BB_SQUARES ep .& to_mask)) then []
      else if nz (BB_SQUARES ep .& occupied b) then []
      else
        let capturers :=
          pawns b .& occupied_co b (turn b) .& from_mask
          .& BB_PAWN_ATTACKS (negb (turn b)) ep
          .& BB_RANKS (if turn b then 4 else 3) in
        map (fun capturer => Move_ capturer ep) (scan_reversed capturers)
  end.

Definition generate_pseudo_legal_moves (b : Board) (from_mask to_mask : Bitboard)
    : list Move :=
  let our_pieces := occupied_co b (turn b) in
  (* Generate piece moves. *)
  let non_pawns := our_pieces .& Z.lnot (pawns b) .& from_mask in
  let piece_moves :=
    flat_map
      (fun from_square =>
         let moves := attacks_mask b from_square .& Z.lnot our_pieces .& to_mask in
         map (fun to_square => Move_ from_square to_square)
             (scan_reversed moves))
      (scan_reversed non_pawns) in
  (* Generate castling moves. *)
  let castling_moves :=
    if nz (from_mask .& kings b) then generate_castling_moves b from_mask to_mask
    else [] in
  (* The remaining moves are all pawn moves. *)
  let pawns := pawns b .& occupied_co b (turn b) .& from_mask in
  if negb (nz pawns) then (piece_moves ++ castling_moves)%list
  else
    (* Generate pawn captures. *)
    let capture_moves :=
      flat_map
        (fun from_square =>
           let targets :=
             BB_PAWN_ATTACKS (turn b) from_square
             .& occupied_co b (negb (turn b)) .& to_mask in
           flat_map (fun to_square => pawn_moves_to from_square to_square)
                    (scan_reversed targets))
        (scan_reversed pawns) in
    (* Prepare pawn advance generation. *)
    let single_moves :=
      if turn b then pawns << 8 .& Z.lnot (occupied b)
      else pawns >> 8 .& Z.lnot (occupied b) in
    let double_moves :=
      if turn b
      then single_moves << 8 .& Z.lnot (occupied b) .& (BB_RANK_3 .| BB_RANK_4)
      else single_moves >> 8 .& Z.lnot (occupied b) .& (BB_RANK_6 .| BB_RANK_5) in
    let single_moves := single_moves .& to_mask in
    let double_moves := double_moves .& to_mask in
    (* Generate single pawn moves. *)
    let single :=
      flat_map
        (fun to_square =>
           let from_square := to_square + (if turn b then -8 else 8) in
           pawn_moves_to from_square to_square)
        (scan_reversed single_moves) in
    (* Generate double pawn moves. *)
    let double :=
      map (fun to_square =>
             let from_square := to_square + (if turn b then -16 else 16) in
             Move_ from_square to_square)
          (scan_reversed double_moves) in
    (* Generate en passant captures. *)
    let ep :=
      match ep_square b with
      | Some ep => if nz ep then generate_pseudo_legal_ep b from_mask to_mask else []
      | None => []
      end in
    (piece_moves ++ castling_moves ++ capture_moves ++ single ++ double ++ ep)%list.

(** ** Legal moves *)

Definition Move_in (m : Move) (l : list Move) : bool :=
  existsb (Move_eqb m) l.

Definition is_castling (b : Board) (move : Move) : bool :=
  if nz (kings b .& BB_SQUARES (from_square move)) then
    let diff := square_file (from_square move) - square_file (to_square move) in
    (1 <? Z.abs diff)
    || nz (rooks b .& occupied_co b (turn b) .& BB_SQUARES (to_square move))
  else false.

Definition is_en_passant (b : Board) (move : Move) : bool :=
  match ep_square b with
  | Some ep =>
      (ep =? to_square move)
      && nz (pawns b .& BB_SQUARES (from_square move))
      && (let d := Z.abs (to_square move - from_square move) in
          (d =? 7) || (d =? 9))
      && negb (nz (occupied b .& BB_SQUARES (to_square move)))
  | None => false
  end.

Definition is_zeroing (b : Board) (move : Move) : bool :=
  let touched := BB_SQUARES (from_square move) .^ BB_SQUARES (to_square move) in
  nz (touched .& pawns b)
  || nz (touched .& occupied_co b (negb (turn b)))
  || option_PieceType_eqb (drop move) (Some PAWN).

Definition _slider_blockers (b : Board) (king : Square) : Bitboard :=
  let rooks_and_queens := rooks b .| queens b in
  let bishops_and_queens := bishops b .| queens b in
  let snipers :=
    (BB_RANK_ATTACKS king 0 .& rooks_and_queens)
    .| (BB_FILE_ATTACKS king 0 .& rooks_and_queens)
    .| (BB_DIAG_ATTACKS king 0 .& bishops_and_queens) in
  let blockers :=
    fold_left
      (fun blockers sniper =>
         let bt := between king sniper .& occupied b in
         if nz bt && (BB_SQUARES (msb bt) =? bt) then blockers .| bt
         else blockers)
      (scan_reversed (snipers .& occupied_co b (negb (turn b))))
      0 in
  blockers .& occupied_co b (turn b).

Definition _ep_skewered (b : Board) (king capturer : Square) : bool :=
  match ep_square b with
  | None => false
  | Some ep =>
      let last_double := ep + (if turn b then -8 else 8) in
      let occupancy :=
        occupied b .& Z.lnot (BB_SQUARES last_double)
        .& Z.lnot (BB_SQUARES capturer) .| BB_SQUARES ep in
      let horizontal_attackers :=
        occupied_co b (negb (turn b)) .& (rooks b .| queens b) in
      if nz (BB_RANK_ATTACKS king (BB_RANK_MASKS king .& occupancy)
             .& horizontal_attackers)
      then true
      else
        let diagonal_attackers :=
          occupied_co b (negb (turn b)) .& (bishops b .| queens b) in
        nz (BB_DIAG_ATTACKS king (BB_DIAG_MASKS king .& occupancy)
            .& diagonal_attackers)
  end.

Definition _is_safe (b : Board) (king : Square) (blockers : Bitboard)
    (move : Move) : bool :=
  if from_square move =? king then
    if is_castling b move then true
    else negb (is_attacked_by b (negb (turn b)) (to_square move))
  else if is_en_passant b move then
    nz (pin_mask b (turn b) (from_square move) .& BB_SQUARES (to_square move))
    && negb (_ep_skewered b king (from_square move))
  else
    negb (nz (blockers .& BB_SQUARES (from_square move)))
    || nz (ray (from_square move) (to_square move) .& BB_SQUARES king).

Definition _generate_evasions (b : Board) (king : Square) (checkers : Bitboard)
    (from_mask to_mask : Bitboard) : list Move :=
  let sliders := checkers .& (bishops b .| rooks b .| queens b) in
  let attacked :=
    fold_left
      (fun attacked checker =>
         attacked .| (ray king checker .& Z.lnot (BB_SQUARES checker)))
      (scan_reversed sliders) 0 in
  let king_moves :=
    if nz (BB_SQUARES king .& from_mask) then
      map (fun to_square => Move_ king to_square)
          (scan_reversed
             (BB_KING_ATTACKS king .& Z.lnot (occupied_co b (turn b))
              .& Z.lnot attacked .& to_mask))
    else [] in
  let checker := msb checkers in
  let others :=
    if BB_SQUARES checker =? checkers then
      (* Capture or block a single checker. *)
      let target := between king checker .| checkers in
      let direct :=
        generate_pseudo_legal_moves b (Z.lnot (kings b) .& from_mask)
                                    (target .& to_mask) in
      (* Capture the checking pawn en passant. *)
      let ep :=
        match ep_square b with
        | Some ep =>
            if nz ep && negb (nz (BB_SQUARES ep .& target)) then
              let last_double := ep + (if turn b then -8 else 8) in
              if last_double =? checker
              then generate_pseudo_legal_ep b from_mask to_mask
              else []
            else []
        | None => []
        end in
      (direct ++ ep)%list
    else [] in
  (king_moves ++ others)%list.

Definition generate_legal_moves (b : Board) (from_mask to_mask : Bitboard)
    : list Move :=
  let king_mask := kings b .& occupied_co b (turn b) in
  if nz king_mask then
    let king := msb king_mask in
    let blockers := _slider_blockers b king in
    let checkers := attackers_mask b (negb (turn b)) king in
    if nz checkers then
      filter (_is_safe b king blockers)
             (_generate_evasions b king checkers from_mask to_mask)
    else
      filter (_is_safe b king blockers)
             (generate_pseudo_legal_moves b from_mask to_mask)
  else generate_pseudo_legal_moves b from_mask to_mask.

(** [board.legal_moves], iterated. *)
Definition legal_moves (b : Board) : list Move :=
  generate_legal_moves b BB_ALL BB_ALL.

Definition is_into_check (b : Board) (move : Move) : bool :=
  match king b (turn b) with
  | None => false
  | Some king =>
      let checkers := attackers_mask b (negb (turn b)) king in
      if nz checkers
         && negb (Move_in move
                    (_generate_evasions b king checkers
                       (BB_SQUARES (from_square move))
                       (BB_SQUARES (to_square move))))
      then true
      else negb (_is_safe b king (_slider_blockers b king) move)
  end.

Definition is_pseudo_legal (b : Board) (move : Move) : bool :=
  (* Null moves are not pseudo-legal. *)
  if negb (Move_bool move) then false
  (* Drops are not pseudo-legal. *)
  else if is_some (drop move) then false
  else
    (* Source square must not be vacant. *)
    match piece_type_at b (from_square move) with
    | None => false
    | Some piece =>
        (* Get square masks. *)
        let from_mask := BB_SQUARES (from_square move) in
        let to_mask := BB_SQUARES (to_square move) in
        (* Check turn. *)
        if negb (nz (occupied_co b (turn b) .& from_mask)) then false
        (* Only pawns can promote and only on the backrank. *)
        else if is_some (promotion move)
                && (negb (PieceType_eqb piece PAWN)
                    || (if turn b
                        then negb (square_rank (to_square move) =? 7)
                        else negb (square_rank (to_square move) =? 0)))
        then false
        else
          (* Handle castling. *)
          let move :=
            if PieceType_eqb piece KING
            then _from_chess960 b (from_square move) (to_square move) None None
            else move in
          if PieceType_eqb piece KING
             && Move_in move (generate_castling_moves b BB_ALL BB_ALL)
          then true
          (* Destination square can not be occupied. *)
          else if nz (occupied_co b (turn b) .& to_mask) then false
          (* Handle pawn moves. *)
          else if PieceType_eqb piece PAWN then
            Move_in move (generate_pseudo_legal_moves b from_mask to_mask)
          (* Handle all other pieces. *)
          else nz (attacks_mask b (from_square move) .& to_mask)
    end.

(** [move in board.legal_moves]. *)
Definition is_legal (b : Board) (move : Move) : bool :=
  is_pseudo_legal b move && negb (is_into_check b move).

(** ** Making a move

    [push] expects a pseudo-legal move; the package asserts that the
    source square holds a piece.  The handlers only push moves that passed
    [is_legal], so the assertion cannot fail there; on an empty source
    square this function leaves the board as it is. *)

Definition set_base (b : Board) (base' : BaseBoard) : Board :=
  mkBoard base' (turn b) (castling_rights b) (ep_square b)
          (halfmove_clock b) (fullmove_number b) (move_stack b).

Definition push (b : Board) (move : Move) : Board :=
  (* Push move and remember board state. *)
  let move := _to_chess960 b move in
  let castling_rights := clean_castling_rights b in
  let move_stack :=
    (move_stack b
     ++ [_from_chess960 b (from_square move) (to_square move)
                        (promotion move) (drop move)])%list in
  (* Reset en passant square. *)
  let ep_square0 := ep_square b in
  (* Increment move counters. *)
  let halfmove_clock := halfmove_clock b + 1 in
  let fullmove_number :=
    if turn b then fullmove_number b else fullmove_number b + 1 in
  (* On a null move, simply swap turns and reset the en passant square. *)
  if negb (Move_bool move) then
    mkBoard (base b) (negb (turn b)) castling_rights None
            halfmove_clock fullmove_number move_stack
  else
    match drop move with
    | Some d =>
        mkBoard (_set_piece_at b (to_square move) d (turn b) false)
                (negb (turn b)) castling_rights None
                halfmove_clock fullmove_number move_stack
    | None =>
        (* Zero the half-move clock. *)
        let halfmove_clock := if is_zeroing b move then 0 else halfmove_clock in
        let from_bb := BB_SQUARES (from_square move) in
        let to_bb := BB_SQUARES (to_square move) in
        let is_promoted := nz (promoted b .& from_bb) in
        match _remove_piece_at b (from_square move) with
        | (None, _) => b
        | (Some piece_type, bb) =>
            let capture_square := to_square move in
            let captured_piece_type := piece_type_at bb capture_square in
            (* Update castling rights. *)
            let castling_rights :=
              castling_rights .& Z.lnot to_bb .& Z.lnot from_bb in
            let castling_rights :=
              if PieceType_eqb piece_type KING && negb is_promoted then
                if turn b then castling_rights .& Z.lnot BB_RANK_1
                else castling_rights .& Z.lnot BB_RANK_8
              else if option_PieceType_eqb captured_piece_type (Some KING)
                      && negb (nz (promoted bb .& to_bb)) then
                if turn b && (square_rank (to_square move) =? 7)
                then castling_rights .& Z.lnot BB_RANK_8
                else if negb (turn b) && (square_rank (to_square move) =? 0)
                then castling_rights .& Z.lnot BB_RANK_1
                else castling_rights
              else castling_rights in
            (* Handle special pawn moves. *)
            let diff := to_square move - from_square move in
            let is_pawn := PieceType_eqb piece_type PAWN in
            let new_ep_square :=
              if is_pawn && (diff =? 16) && (square_rank (from_square move) =? 1)
              then Some (from_square move + 8)
              else if is_pawn && (diff =? -16)
                      && (square_rank (from_square move) =? 6)
              then Some (from_square move - 8)
              else None in
            let captures_ep :=
              is_pawn
              && negb ((diff =? 16) && (square_rank (from_square move) =? 1))
              && negb ((diff =? -16) && (square_rank (from_square move) =? 6))
              && match ep_square0 with
                 | Some ep => to_square move =? ep
                 | None => false
                 end
              && ((Z.abs diff =? 7) || (Z.abs diff =? 9))
              && negb (is_some captured_piece_type) in
            let bb :=
              if captures_ep then
                (* Remove pawns captured en passant. *)
                let down := if turn b then -8 else 8 in
                snd (_remove_piece_at bb (to_square move + down))
              else bb in
            (* Promotion. *)
            let is_promoted := is_promoted || is_some (promotion move) in
            let piece_type :=
              match promotion move with
              | Some p => p
              | None => piece_type
              end in
            (* Castling. *)
            let castling :=
              PieceType_eqb piece_type KING
              && nz (occupied_co bb (turn b) .& to_bb) in
            let bb :=
              if castling then
                let a_side :=
                  square_file (to_square move) <? square_file (from_square move) in
                let bb := snd (_remove_piece_at bb (from_square move)) in
                let bb := snd (_remove_piece_at bb (to_square move)) in
                if a_side then
                  let bb := _set_piece_at bb (if turn b then C1 else C8)
                                          KING (turn b) false in
                  _set_piece_at bb (if turn b then D1 else D8) ROOK (turn b) false
                else
                  let bb := _set_piece_at bb (if turn b then G1 else G8)
                                          KING (turn b) false in
                  _set_piece_at bb (if turn b then F1 else F8) ROOK (turn b) false
              else
                (* Put the piece on the target square. *)
                _set_piece_at bb (to_square move) piece_type (turn b) is_promoted in
            (* Swap turn. *)
            mkBoard bb (negb (turn b)) castling_rights new_ep_square
                    halfmove_clock fullmove_number move_stack
        end
    end.

(** ** State queries *)

Definition checkers_mask (b : Board) : Bitboard :=
  match king b (turn b) with
  | None => BB_EMPTY
  | Some king => attackers_mask b (negb (turn b)) king
  end.

Definition is_check (b : Board) : bool := nz (checkers_mask b).

(** [any(self.generate_legal_moves())]. *)
Definition any_legal_move (b : Board) : bool :=
  match legal_moves b with
  | [] => false
  | _ :: _ => true
  end.

Definition is_checkmate (b : Board) : bool :=
  if negb (is_check b) then false
  else negb (any_legal_move b).

Definition is_stalemate (b : Board) : bool :=
  if is_check b then false
  else negb (any_legal_move b).

Definition has_insufficient_material (b : Board) (color : Color) : bool :=
  if nz (occupied_co b color .& (pawns b .| rooks b .| queens b)) then false
  else if nz (occupied_co b color .& knights b) then
    (popcount (occupied_co b color) <=? 2)
    && negb (nz (occupied_co b (negb color)
                 .& Z.lnot (kings b) .& Z.lnot (queens b)))
  else if nz (occupied_co b color .& bishops b) then
    let same_color :=
      negb (nz (bishops b .& BB_DARK_SQUARES))
      || negb (nz (bishops b .& BB_LIGHT_SQUARES)) in
    same_color && negb (nz (pawns b)) && negb (nz (knights b))
  else true.

Definition is_insufficient_material (b : Board) : bool :=
  has_insufficient_material b WHITE && has_insufficient_material b BLACK.

Definition is_seventyfive_moves (b : Board) : bool :=
  (150 <=? halfmove_clock b) && any_legal_move b.

(** A board of this service is built from a FEN and pushed at most once,
    so its stack holds at most one earlier state; five occurrences of a
    position need at least four. *)
Definition is_fivefold_repetition (b : Board) : bool := false.

(** [is_game_over()] is [outcome() is not None] with [claim_draw=False]. *)
Definition is_game_over (b : Board) : bool :=
  is_checkmate b
  || is_insufficient_material b
  || negb (any_legal_move b)
  || is_seventyfive_moves b
  || is_fivefold_repetition b.

(** ** Text helpers: [str(int)], [int(str)], [str.split] *)

Definition digit_char (d : Z) : ascii := ascii_of_nat (48 + Z.to_nat d).

Fixpoint str_digits (fuel : nat) (n : Z) (acc : string) : string :=
  match fuel with
  | O => acc
  | S fuel' =>
      let acc := String (digit_char (n mod 10)) acc in
      if n <? 10 then acc else str_digits fuel' (n / 10) acc
  end.

(** The decimal text of an integer [n]. *)
Definition decimal (n : Z) : string :=
  if n <? 0
  then String "-"%char (str_digits (S (Z.to_nat (Z.log2 (- n)))) (- n) EmptyString)
  else str_digits (S (Z.to_nat (Z.log2 n))) n EmptyString.

(** The interpreter's limit on the number of digits of an integer that is
    converted to or from decimal text
    ([sys.int_info.default_max_str_digits]). *)
Definition MAX_STR_DIGITS : Z := 4300.

(** [str(n)] for an integer [n]: a [ValueError] when [n] has more than
    [MAX_STR_DIGITS] digits. *)
Definition str_int (n : Z) : except string :=
  if 10 ^ MAX_STR_DIGITS <=? Z.abs n then Raise ValueError
  else Ok (decimal n).

Definition is_digit (c : ascii) : bool :=
  let n := nat_of_ascii c in (48 <=? n)%nat && (n <=? 57)%nat.

Definition digit_value (c : ascii) : Z := Z.of_nat (nat_of_ascii c - 48).

Fixpoint py_digits (s : string) (acc : Z) (after_digit : bool) : option Z :=
  match s with
  | EmptyString => if after_digit then Some acc else None
  | String c s' =>
      if is_digit c then py_digits s' (10 * acc + digit_value c) true
      else if Ascii.eqb c "_" then
        if after_digit then py_digits s' acc false else None
      else None
  end.

Fixpoint count_digits (s : string) : Z :=
  match s with
  | EmptyString => 0
  | String c s' => (if is_digit c then 1 else 0) + count_digits s'
  end.

(** [int(s)] in base ten; [None] stands for the [ValueError], which is
    also raised when [s] has more than [MAX_STR_DIGITS] digits. *)
Definition py_int (s : string) : option Z :=
  if MAX_STR_DIGITS <? count_digits s then None
  else
    match s with
    | String "-"%char s' => option_map Z.opp (py_digits s' 0 false)
    | String "+"%char s' => py_digits s' 0 false
    | _ => py_digits s 0 false
    end.

(** A string of ASCII characters. *)
Fixpoint is_ascii (s : string) : bool :=
  match s with
  | EmptyString => true
  | String c s' => (nat_of_ascii c <? 128)%nat && is_ascii s'
  end.

(** The ASCII characters [str.split()] treats as whitespace.  Beyond
    ASCII, [str.split()] knows further spaces; position strings are taken
    to be ASCII text (see [is_ascii]). *)
Definition is_space (c : ascii) : bool :=
  let n := nat_of_ascii c in
  ((9 <=? n)%nat && (n <=? 13)%nat)
  || ((28 <=? n)%nat && (n <=? 32)%nat).

(** A string [split] keeps whole: no character of it is whitespace. *)
Fixpoint no_space (s : string) : bool :=
  match s with
  | EmptyString => true
  | String c s' => negb (is_space c) && no_space s'
  end.

(** A string of whitespace only (the empty string included). *)
Fixpoint all_space (s : string) : bool :=
  match s with
  | EmptyString => true
  | String c s' => is_space c && all_space s'
  end.

Fixpoint split_aux (s : string) (word : string) : list string :=
  match s with
  | EmptyString =>
      match word with EmptyString => [] | _ => [word] end
  | String c s' =>
      if is_space c then
        match word with
        | EmptyString => split_aux s' EmptyString
        | _ => word :: split_aux s' EmptyString
        end
      else split_aux s' (word ++ String c EmptyString)%string
  end.

(** [s.split()]: the maximal runs of non-whitespace characters. *)
Definition split (s : string) : list string := split_aux s EmptyString.

Fixpoint split_on_aux (sep : ascii) (s : string) (word : string) : list string :=
  match s with
  | EmptyString => [word]
  | String c s' =>
      if Ascii.eqb c sep then word :: split_on_aux sep s' EmptyString
      else split_on_aux sep s' (word ++ String c EmptyString)%string
  end.

(** [s.split(sep)] for a one-character separator. *)
Definition split_on (sep : ascii) (s : string) : list string :=
  split_on_aux sep s EmptyString.

(** [" ".join(parts)]. *)
Fixpoint join_space (parts : list string) : string :=
  match parts with
  | [] => EmptyString
  | [x] => x
  | x :: rest => (x ++ String " "%char (join_space rest))%string
  end.

(** ** Writing a FEN *)

Definition SQUARES : list Square := map Z.of_nat (seq 0 64).
Definition square_mirror (square : Square) : Square := square .^ 0x38.
Definition SQUARES_180 : list Square := map square_mirror SQUARES.

Definition piece_at (b : BaseBoard) (square : Square)
    : option (PieceType * Color) :=
  match piece_type_at b square with
  | Some piece_type =>
      Some (piece_type, nz (occupied_co b WHITE .& BB_SQUARES square))
  | None => None
  end.

Definition Piece_symbol (piece : PieceType * Color) : ascii :=
  let symbol := piece_symbol (fst piece) in
  if snd piece then upper symbol else symbol.

(** [str(empty)] in [board_fen]: the count of empty squares is at most
    eight, far from the digit limit of [str_int]. *)
Definition flush_empty (st : string * Z) : string * Z :=
  let '(builder, empty) := st in
  if nz empty then ((builder ++ decimal empty)%string, 0) else (builder, empty).

Definition board_fen_step (b : BaseBoard) (with_promoted : bool)
    (st : string * Z) (square : Square) : string * Z :=
  let st :=
    match piece_at b square with
    | None => (fst st, snd st + 1)
    | Some piece =>
        let '(builder, empty) := flush_empty st in
        let builder := (builder ++ String (Piece_symbol piece) EmptyString)%string in
        if with_promoted && nz (BB_SQUARES square .& promoted b)
        then ((builder ++ "~")%string, empty)
        else (builder, empty)
    end in
  if nz (BB_SQUARES square .& BB_FILE_H) then
    let '(builder, empty) := flush_empty st in
    if square =? H1 then (builder, empty)
    else ((builder ++ "/")%string, empty)
  else st.

Definition board_fen (b : BaseBoard) (with_promoted : bool) : string :=
  fst (fold_left (board_fen_step b with_promoted) SQUARES_180 (EmptyString, 0)).

Definition castling_xfen (b : Board) : string :=
  let side (color : Color) : string :=
    match king b color with
    | None => EmptyString
    | Some king =>
        let king_file := square_file king in
        let backrank := if color then BB_RANK_1 else BB_RANK_8 in
        string_of_list_ascii
          (map
             (fun rook_square =>
                let rook_file := square_file rook_square in
                let a_side := rook_file <? king_file in
                let other_rooks :=
                  occupied_co b color .& rooks b .& backrank
                  .& Z.lnot (BB_SQUARES rook_square) in
                let ch :=
                  if existsb
                       (fun other =>
                          Bool.eqb (square_file other <? rook_file) a_side)
                       (scan_reversed other_rooks)
                  then FILE_NAMES rook_file
                  else if a_side then "q"%char else "k"%char in
                if color then upper ch else ch)
             (scan_reversed (clean_castling_rights b .& backrank)))
    end in
  let builder := (side WHITE ++ side BLACK)%string in
  match builder with
  | EmptyString => "-"%string
  | _ => builder
  end.

Definition generate_legal_ep (b : Board) (from_mask to_mask : Bitboard)
    : list Move :=
  filter (fun move => negb (is_into_check b move))
         (generate_pseudo_legal_ep b from_mask to_mask).

Definition has_legal_en_passant (b : Board) : bool :=
  is_some (ep_square b)
  && match generate_legal_ep b BB_ALL BB_ALL with
     | [] => false
     | _ :: _ => true
     end.

Definition turn_symbol (color : Color) : string :=
  if color then "w"%string else "b"%string.

(** [epd()] with its defaults: the en passant square is written only when
    an en passant capture is legal. *)
Definition epd (b : Board) : string :=
  let ep_square := if has_legal_en_passant b then ep_square b else None in
  join_space
    [ board_fen b false;
      turn_symbol (turn b);
      castling_xfen b;
      match ep_square with
      | Some ep => SQUARE_NAMES ep
      | None => "-"%string
      end ].

(** [fen()]: the [str] of either counter can raise. *)
Definition fen (b : Board) : except string :=
  let epd_part := epd b in
  match str_int (halfmove_clock b) with
  | Raise e => Raise e
  | Ok halfmove =>
      match str_int (fullmove_number b) with
      | Raise e => Raise e
      | Ok fullmove => Ok (join_space [ epd_part; halfmove; fullmove ])
      end
  end.

(** ** Reading a FEN

    Every failure of [set_fen] is a [ValueError]. *)

Definition bind {A B : Type} (x : except A) (k : A -> except B) : except B :=
  match x with
  | Ok a => k a
  | Raise e => Raise e
  end.

Notation "x <- e ;; k" := (bind e (fun x => k))
  (at level 61, e at next level, right associativity).
Notation "' p <- e ;; k" := (bind e (fun p => k))
  (at level 61, p pattern, e at next level, right associativity).

Definition check (cond : bool) : except unit :=
  if cond then Ok tt else Raise ValueError.

Definition is_fen_digit (c : ascii) : bool :=
  let n := nat_of_ascii c in (49 <=? n)%nat && (n <=? 56)%nat.

(** The validation of one row of the board part: the running
    [field_sum], [previous_was_digit] and [previous_was_piece]. *)
Fixpoint validate_row (row : string) (field_sum : Z)
    (previous_was_digit previous_was_piece : bool) : except Z :=
  match row with
  | EmptyString => Ok field_sum
  | String c row' =>
      if is_fen_digit c then
        if previous_was_digit then Raise ValueError
        else validate_row row' (field_sum + digit_value c) true false
      else if Ascii.eqb c "~" then
        if negb previous_was_piece then Raise ValueError
        else validate_row row' field_sum false false
      else if is_some (piece_of_symbol (lower c)) then
        validate_row row' (field_sum + 1) false true
      else Raise ValueError
  end.

Fixpoint validate_rows (rows : list string) : except unit :=
  match rows with
  | [] => Ok tt
  | row :: rows' =>
      field_sum <- validate_row row 0 false false ;;
      _ <- check (field_sum =? 8) ;;
      validate_rows rows'
  end.

(** The placement loop of [_set_board_fen], over all characters of the
    board part. *)
Fixpoint place_pieces (fen : string) (square_index : Z) (b : BaseBoard)
    : BaseBoard :=
  match fen with
  | EmptyString => b
  | String c fen' =>
      if is_fen_digit c then
        place_pieces fen' (square_index + digit_value c) b
      else
        match piece_of_symbol (lower c) with
        | Some piece_type =>
            place_pieces fen' (square_index + 1)
              (_set_piece_at b (square_mirror square_index) piece_type
                             (is_upper c) false)
        | None =>
            if Ascii.eqb c "~" then
              place_pieces fen' square_index
                (mkBaseBoard (pawns b) (knights b) (bishops b) (rooks b)
                   (queens b) (kings b)
                   (promoted b .| BB_SQUARES (square_mirror (square_index - 1)))
                   (occupied_white b) (occupied_black b) (occupied b))
            else place_pieces fen' square_index b
        end
  end.

Definition _set_board_fen (fen : string) : except BaseBoard :=
  let rows := split_on "/" fen in
  _ <- check (List.length rows =? 8)%nat ;;
  _ <- validate_rows rows ;;
  Ok (place_pieces fen 0 _clear_board).

Definition in_upper_flags (c : ascii) : bool :=
  let n := nat_of_ascii c in
  Ascii.eqb c "K" || Ascii.eqb c "Q" || ((65 <=? n)%nat && (n <=? 72)%nat).

Definition in_lower_flags (c : ascii) : bool :=
  let n := nat_of_ascii c in
  Ascii.eqb c "k" || Ascii.eqb c "q" || ((97 <=? n)%nat && (n <=? 104)%nat).

(** Drops at most [n] leading characters that satisfy [p]. *)
Fixpoint strip_upto (n : nat) (p : ascii -> bool) (s : string) : string :=
  match n, s with
  | S n', String c s' => if p c then strip_upto n' p s' else s
  | _, _ => s
  end.

(** [FEN_CASTLING_REGEX.match(s)]: a dash, or at most two flags of
    [KQABCDEFGH] followed by at most two of [kqabcdefgh]. *)
Definition FEN_CASTLING_REGEX_match (s : string) : bool :=
  String.eqb s "-"
  || match strip_upto 2 in_lower_flags (strip_upto 2 in_upper_flags s) with
     | EmptyString => true
     | _ => false
     end.

Definition castling_flag (b : BaseBoard) (rights : Bitboard) (flag : ascii)
    : Bitboard :=
  let color := if is_upper flag then WHITE else BLACK in
  let flag := lower flag in
  let backrank := if color then BB_RANK_1 else BB_RANK_8 in
  let rooks := occupied_co b color .& rooks b .& backrank in
  let king := king b color in
  if Ascii.eqb flag "q" then
    (* Select the leftmost rook. *)
    match king with
    | Some k =>
        if lsb rooks <? k then rights .| (rooks .& (- rooks))
        else rights .| (BB_FILE_A .& backrank)
    | None => rights .| (BB_FILE_A .& backrank)
    end
  else if Ascii.eqb flag "k" then
    (* Select the rightmost rook. *)
    let rook := msb rooks in
    match king with
    | Some k =>
        if k <? rook then rights .| BB_SQUARES rook
        else rights .| (BB_FILE_H .& backrank)
    | None => rights .| (BB_FILE_H .& backrank)
    end
  else
    rights .| (BB_FILES (Z.of_nat (nat_of_ascii flag - 97)) .& backrank).

Definition _set_castling_fen (b : BaseBoard) (castling_fen : string) : Bitboard :=
  if String.eqb castling_fen "-" then BB_EMPTY
  else fold_left (castling_flag b) (list_ascii_of_string castling_fen) BB_EMPTY.

(** [parts.pop(0)] with a default for the exhausted list. *)
Definition pop0 (parts : list string) : option string * list string :=
  match parts with
  | [] => (None, [])
  | x :: rest => (Some x, rest)
  end.

Definition set_fen (fen : string) : except Board :=
  let parts := split fen in
  (* Board part. *)
  match pop0 parts with
  | (None, _) => Raise ValueError
  | (Some board_part, parts) =>
      (* Turn. *)
      let '(turn_part, parts) := pop0 parts in
      turn <-
        match turn_part with
        | None => Ok WHITE
        | Some t =>
            if String.eqb t "w" then Ok WHITE
            else if String.eqb t "b" then Ok BLACK
            else Raise ValueError
        end ;;
      (* Validate castling part. *)
      let '(castling_part, parts) := pop0 parts in
      castling_part <-
        match castling_part with
        | None => Ok "-"%string
        | Some c => if FEN_CASTLING_REGEX_match c then Ok c else Raise ValueError
        end ;;
      (* En passant square. *)
      let '(ep_part, parts) := pop0 parts in
      ep_square <-
        match ep_part with
        | None => Ok None
        | Some e =>
            if String.eqb e "-" then Ok None
            else
              match SQUARE_NAMES_index e with
              | Some sq => Ok (Some sq)
              | None => Raise ValueError
              end
        end ;;
      (* Check that the half-move part is valid. *)
      let '(halfmove_part, parts) := pop0 parts in
      halfmove_clock <-
        match halfmove_part with
        | None => Ok 0
        | Some h =>
            match py_int h with
            | Some n => if n <? 0 then Raise ValueError else Ok n
            | None => Raise ValueError
            end
        end ;;
      (* Check that the full-move number part is valid. *)
      let '(fullmove_part, parts) := pop0 parts in
      fullmove_number <-
        match fullmove_part with
        | None => Ok 1
        | Some f =>
            match py_int f with
            | Some n => if n <? 0 then Raise ValueError else Ok (Z.max n 1)
            | None => Raise ValueError
            end
        end ;;
      (* All parts should be consumed now. *)
      _ <- check (match parts with [] => true | _ => false end) ;;
      (* Validate the board part and set it. *)
      bb <- _set_board_fen board_part ;;
      (* Apply. *)
      Ok (mkBoard bb turn (_set_castling_fen bb castling_part) ep_square
                  halfmove_clock fullmove_number [])
  end.

Definition STARTING_FEN : string :=
  "rnbqkbnr/pppppppp/8/8/8/8/PPPPPPPP/RNBQKBNR w KQkq - 0 1".

(** [Board.reset()]: the starting position, as [chess.Board()] builds
    it. *)
Definition reset : Board :=
  mkBoard
    (mkBaseBoard
       (BB_RANKS 1 .| BB_RANKS 6)
       (BB_SQUARES 1 .| BB_SQUARES 6 .| BB_SQUARES 57 .| BB_SQUARES 62)
       (BB_SQUARES 2 .| BB_SQUARES 5 .| BB_SQUARES 58 .| BB_SQUARES 61)
       (BB_SQUARES A1 .| BB_SQUARES H1 .| BB_SQUARES A8 .| BB_SQUARES H8)
       (BB_SQUARES D1 .| BB_SQUARES D8)
       (BB_SQUARES E1 .| BB_SQUARES E8)
       BB_EMPTY
       (BB_RANK_1 .| BB_RANKS 1)
       (BB_RANKS 6 .| BB_RANK_8)
       (BB_RANK_1 .| BB_RANKS 1 .| BB_RANKS 6 .| BB_RANK_8))
    WHITE
    (BB_SQUARES A1 .| BB_SQUARES H1 .| BB_SQUARES A8 .| BB_SQUARES H8)
    None 0 1 [].

(** [chess.Board(fen)]. *)
Definition Board_ (fen : string) : except Board :=
  if String.eqb fen STARTING_FEN then Ok reset else set_fen fen.

(** Every move [from_uci] can return: the null move, the moves between
    two squares with or without a promotion piece, and the drops. *)
Definition all_promotions : list (option PieceType) :=
  [ None; Some PAWN; Some KNIGHT; Some BISHOP; Some ROOK; Some QUEEN;
    Some KING ].

Definition all_uci_moves : list Move :=
  Move_null
  :: (flat_map
        (fun from_square =>
           flat_map
             (fun to_square =>
                map (fun promotion =>
                       mkMove from_square to_square promotion None)
                    all_promotions)
             SQUARES)
        SQUARES
      ++ flat_map
           (fun square =>
              map (fun d => mkMove square square None (Some d))
                  [PAWN; KNIGHT; BISHOP; ROOK; QUEEN; KING])
           SQUARES)%list.

(** The promotion pieces the move generator uses: none, or queen, rook,
    bishop, knight. *)
Definition playable_promotion (p : option PieceType) : bool :=
  match p with
  | None | Some QUEEN | Some ROOK | Some BISHOP | Some KNIGHT => true
  | Some PAWN | Some KING => false
  end.

(** Whether [from_uci] reads [m] back from [uci m]. *)
Definition uci_round_trips (m : Move) : bool :=
  match from_uci (uci m) with
  | Ok m' => Move_eqb m' m
  | Raise _ => false
  end.

(** The moves between two different squares, with or without a promotion
    piece. *)
Definition plain_moves : list Move :=
  flat_map
    (fun from_square =>
       flat_map
         (fun to_square =>
            if from_square =? to_square then []
            else map (fun promotion =>
                        mkMove from_square to_square promotion None)
                     all_promotions)
         SQUARES)
    SQUARES.

End PyChess.

(** [PyChess] as the engine behind the handlers. *)

Lemma reset_fen_ok : exists fen, PyChess.fen PyChess.reset = Ok fen.
Proof.
  eexists. vm_compute. reflexivity.
Qed.

#[export] Instance PyChessEngine : RulesEngine := {|
  BoardT := PyChess.Board;
  MoveT := PyChess.Move;
  Board_new := PyChess.Board_;
  Board_init := PyChess.reset;
  Move_from_uci := PyChess.from_uci;
  Move_uci := PyChess.uci;
  legal_moves_contains := PyChess.is_legal;
  legal_moves_iter := PyChess.legal_moves;
  Board_push := PyChess.push;
  Board_fen := PyChess.fen;
  Board_turn := PyChess.turn;
  Board_is_check := PyChess.is_check;
  Board_is_checkmate := PyChess.is_checkmate;
  Board_is_stalemate := PyChess.is_stalemate;
  Board_is_game_over := PyChess.is_game_over;
  Board_init_fen_ok := reset_fen_ok
|}.

(** A position whose half-move clock is 4300 nines, the longest counter
    the parser still reads: two bare kings, white to move.  One more
    half-move and the clock has 4301 digits. *)



(** Modelled from the spec: the "known set of opening moves", which the
    source does not list.  The twenty first moves of chess: each pawn one
    or two squares forward, each knight to its two squares. *)

Definition opening_moves : list string :=
  [ "a2a3"; "a2a4"; "b2b3"; "b2b4"; "c2c3"; "c2c4"; "d2d3"; "d2d4";
    "e2e3"; "e2e4"; "f2f3"; "f2f4"; "g2g3"; "g2g4"; "h2h3"; "h2h4";
    "b1a3"; "b1c3"; "g1f3"; "g1h3" ].

(** * Facts about the engine *)

Module PyChessFacts.

Import PyChess.

Lemma Ok_inj {A : Type} (a b : A) : Ok a = Ok b -> a = b.
Proof.
  intros H. now injection H.
Qed.

(** ** Strings without whitespace and how [split] reads them *)

Lemma append_assoc (a b c : string) :
  ((a ++ b) ++ c = a ++ (b ++ c))%string.
Proof.
  induction a as [|x a IH]; simpl; [reflexivity | now rewrite IH].
Qed.

Lemma append_nil_r (a : string) : (a ++ EmptyString)%string = a.
Proof.
  induction a as [|x a IH]; simpl; [reflexivity | now rewrite IH].
Qed.

Lemma length_append (a b : string) :
  String.length (a ++ b) = (String.length a + String.length b)%nat.
Proof.
  induction a as [|x a IH]; simpl; [reflexivity | now rewrite IH].
Qed.

Lemma no_space_append (a b : string) :
  no_space (a ++ b) = no_space a && no_space b.
Proof.
  induction a as [|x a IH]; simpl; [reflexivity|].
  rewrite IH. now rewrite andb_assoc.
Qed.

Lemma split_aux_word (a s w : string) :
  no_space a = true ->
  split_aux (a ++ s) w = split_aux s (w ++ a).
Proof.
  revert w. induction a as [|x a IH]; intros w Ha; simpl in *.
  - now rewrite append_nil_r.
  - apply andb_prop in Ha. destruct Ha as [Hx Ha].
    apply negb_true_iff in Hx. rewrite Hx.
    rewrite IH by assumption. now rewrite append_assoc.
Qed.

(** A non-empty word without whitespace, followed by a space, is the
    first part [split] returns. *)
Lemma split_first_word (a rest : string) :
  a <> EmptyString -> no_space a = true ->
  split (a ++ String " " rest) = a :: split rest.
Proof.
  intros Hne Ha. unfold split.
  rewrite split_aux_word by assumption. simpl.
  destruct a; [contradiction | reflexivity].
Qed.

(** ** [str(int)] and piece symbols hold no whitespace *)

Lemma digit_char_no_space (d : Z) :
  (0 <= d < 10)%Z -> is_space (digit_char d) = false.
Proof.
  intros Hd.
  assert (H : (d = 0 \/ d = 1 \/ d = 2 \/ d = 3 \/ d = 4 \/ d = 5 \/ d = 6
               \/ d = 7 \/ d = 8 \/ d = 9)%Z) by lia.
  repeat (destruct H as [H|H]; [subst d; reflexivity|]).
  subst d; reflexivity.
Qed.

Lemma str_digits_no_space (fuel : nat) :
  forall n acc, no_space acc = true -> no_space (str_digits fuel n acc) = true.
Proof.
  induction fuel as [|fuel IH]; intros n acc Hacc; cbn [str_digits];
    [assumption|].
  assert (Hstep : no_space (String (digit_char (n mod 10)) acc) = true).
  { cbn [no_space].
    rewrite digit_char_no_space by (apply Z.mod_pos_bound; lia).
    exact Hacc. }
  destruct (n <? 10)%Z; [exact Hstep | apply IH; exact Hstep].
Qed.

Lemma decimal_no_space (n : Z) : no_space (decimal n) = true.
Proof.
  unfold decimal. destruct (n <? 0)%Z.
  - cbn [no_space]. replace (is_space "-") with false by reflexivity.
    apply str_digits_no_space. reflexivity.
  - apply str_digits_no_space. reflexivity.
Qed.

Lemma Piece_symbol_no_space (piece : PieceType * Color) :
  is_space (Piece_symbol piece) = false.
Proof.
  destruct piece as [[] []]; reflexivity.
Qed.

(** ** The board part of a FEN is one word *)

Lemma flush_empty_no_space (st : string * Z) :
  no_space (fst st) = true -> no_space (fst (flush_empty st)) = true.
Proof.
  destruct st as [builder empty]; unfold flush_empty; simpl; intros H.
  destruct (nz empty); simpl; [|assumption].
  now rewrite no_space_append, H, decimal_no_space.
Qed.

Lemma flush_empty_length (st : string * Z) :
  (String.length (fst st) <= String.length (fst (flush_empty st)))%nat.
Proof.
  destruct st as [builder empty]; unfold flush_empty; simpl.
  destruct (nz empty); simpl; [rewrite length_append|]; lia.
Qed.

Lemma board_fen_step_no_space (b : BaseBoard) (wp : bool) (st : string * Z)
    (square : Square) :
  no_space (fst st) = true ->
  no_space (fst (board_fen_step b wp st square)) = true.
Proof.
  intros Hst. unfold board_fen_step.
  set (st1 := match piece_at b square with
              | Some _ => _ | None => _ end).
  assert (Hst1 : no_space (fst st1) = true).
  { subst st1. destruct (piece_at b square) as [piece|]; [|exact Hst].
    pose proof (flush_empty_no_space st Hst) as Hf.
    destruct (flush_empty st) as [builder empty]; simpl in Hf.
    assert (Hb : no_space (builder ++ String (Piece_symbol piece) EmptyString)
                 = true).
    { rewrite no_space_append, Hf. simpl.
      now rewrite Piece_symbol_no_space. }
    destruct (wp && nz (BB_SQUARES square .& promoted b)); simpl.
    - rewrite no_space_append, Hb. reflexivity.
    - exact Hb. }
  clearbody st1.
  destruct (nz (BB_SQUARES square .& BB_FILE_H)); [|exact Hst1].
  pose proof (flush_empty_no_space st1 Hst1) as Hf.
  destruct (flush_empty st1) as [builder empty]; simpl in Hf.
  destruct (square =? H1)%Z; simpl; [exact Hf|].
  rewrite no_space_append, Hf. reflexivity.
Qed.

Lemma board_fen_step_length (b : BaseBoard) (wp : bool) (st : string * Z)
    (square : Square) :
  (String.length (fst st)
   <= String.length (fst (board_fen_step b wp st square)))%nat.
Proof.
  unfold board_fen_step.
  set (st1 := match piece_at b square with
              | Some _ => _ | None => _ end).
  assert (Hst1 : (String.length (fst st) <= String.length (fst st1))%nat).
  { subst st1. destruct (piece_at b square) as [piece|]; [|simpl; lia].
    pose proof (flush_empty_length st) as Hf.
    destruct (flush_empty st) as [builder empty]; simpl in Hf.
    destruct (wp && nz (BB_SQUARES square .& promoted b)); simpl;
      repeat rewrite length_append; simpl; lia. }
  clearbody st1.
  destruct (nz (BB_SQUARES square .& BB_FILE_H)); [|exact Hst1].
  pose proof (flush_empty_length st1) as Hf.
  destruct (flush_empty st1) as [builder empty]; simpl in Hf.
  destruct (square =? H1)%Z; simpl; [|rewrite length_append; simpl]; lia.
Qed.

(** The step for h8 closes the first row with a slash. *)
Lemma board_fen_step_h8 (b : BaseBoard) (wp : bool) (st : string * Z) :
  (1 <= String.length (fst (board_fen_step b wp st H8)))%nat.
Proof.
  unfold board_fen_step.
  set (st1 := match piece_at b H8 with
              | Some _ => _ | None => _ end).
  clearbody st1.
  replace (nz (BB_SQUARES H8 .& BB_FILE_H)) with true by reflexivity.
  destruct (flush_empty st1) as [builder empty].
  replace (H8 =? H1)%Z with false by reflexivity.
  simpl. rewrite length_append. simpl. lia.
Qed.

Lemma board_fen_fold_no_space (b : BaseBoard) (wp : bool) (l : list Square) :
  forall st, no_space (fst st) = true ->
  no_space (fst (fold_left (board_fen_step b wp) l st)) = true.
Proof.
  induction l as [|sq l IH]; intros st Hst; simpl; [assumption|].
  apply IH. now apply board_fen_step_no_space.
Qed.

Lemma board_fen_fold_length (b : BaseBoard) (wp : bool) (l : list Square) :
  forall st,
  (String.length (fst st)
   <= String.length (fst (fold_left (board_fen_step b wp) l st)))%nat.
Proof.
  induction l as [|sq l IH]; intros st; simpl; [lia|].
  etransitivity; [apply board_fen_step_length | apply IH].
Qed.

Lemma board_fen_no_space (b : BaseBoard) (wp : bool) :
  no_space (board_fen b wp) = true.
Proof.
  unfold board_fen. apply board_fen_fold_no_space. reflexivity.
Qed.

Lemma SQUARES_180_h8 :
  exists pre post, SQUARES_180 = (pre ++ H8 :: post)%list.
Proof.
  exists (firstn 7 SQUARES_180), (skipn 8 SQUARES_180).
  vm_compute. reflexivity.
Qed.

Lemma board_fen_nonempty (b : BaseBoard) (wp : bool) :
  board_fen b wp <> EmptyString.
Proof.
  assert (Hlen : (1 <= String.length (board_fen b wp))%nat).
  { unfold board_fen. destruct SQUARES_180_h8 as (pre & post & ->).
    rewrite fold_left_app. cbn [fold_left].
    etransitivity; [|apply board_fen_fold_length].
    apply board_fen_step_h8. }
  intros Heq. rewrite Heq in Hlen. cbn [String.length] in Hlen. lia.
Qed.

(** ** The side to move in a FEN *)

(** The first two parts of the FEN that [fen] writes are the board part
    and the letter of the side to move. *)
Lemma fen_split (b : Board) (s : string) :
  fen b = Ok s ->
  exists rest,
    split s = board_fen b false :: turn_symbol (turn b) :: rest.
Proof.
  unfold fen. cbv zeta.
  destruct (str_int (halfmove_clock b)) as [halfmove|]; [|discriminate].
  destruct (str_int (fullmove_number b)) as [fullmove|]; [|discriminate].
  intros H. apply Ok_inj in H. subst s.
  unfold epd. cbn [join_space].
  rewrite append_assoc. cbn [append].
  rewrite split_first_word
    by (apply board_fen_nonempty || apply board_fen_no_space).
  rewrite append_assoc. cbn [append].
  rewrite split_first_word by (destruct (turn b); (discriminate || reflexivity)).
  eexists. reflexivity.
Qed.

Ltac step_bind H :=
  match type of H with
  | bind ?x _ = Ok _ =>
      let a := fresh "a" in
      destruct x as [a|] eqn:?; cbn [bind] in H; [|discriminate H]
  | (let '(_, _) := pop0 ?l in _) = Ok _ =>
      destruct (pop0 l) as [? ?]
  end.

(** [set_fen] takes the side to move from the second part. *)
Lemma set_fen_turn (s : string) (b : Board) (board_part turn_part : string)
    (rest : list string) :
  set_fen s = Ok b ->
  split s = board_part :: turn_part :: rest ->
  turn_part = turn_symbol (turn b).
Proof.
  intros H Hs. unfold set_fen in H. rewrite Hs in H. cbn [pop0] in H.
  destruct (String.eqb turn_part "w") eqn:Ew.
  - apply String.eqb_eq in Ew. subst turn_part.
    cbn [bind] in H. repeat step_bind H.
    injection H as <-. reflexivity.
  - destruct (String.eqb turn_part "b") eqn:Eb; [|discriminate H].
    apply String.eqb_eq in Eb. subst turn_part.
    cbn [bind] in H. repeat step_bind H.
    injection H as <-. reflexivity.
Qed.

Lemma Board_is_set_fen (s : string) : Board_ s = set_fen s.
Proof.
  unfold Board_. destruct (String.eqb s STARTING_FEN) eqn:E; [|reflexivity].
  apply String.eqb_eq in E. subst s. vm_compute. reflexivity.
Qed.

Lemma turn_symbol_inj (c d : Color) : turn_symbol c = turn_symbol d -> c = d.
Proof.
  destruct c, d; (reflexivity || discriminate).
Qed.

(** A FEN that parses to [b] and is written for [b'] gives both boards
    the same side to move. *)
Lemma fen_turn (s : string) (b b' : Board) :
  Board_ s = Ok b -> fen b' = Ok s -> turn b' = turn b.
Proof.
  intros Hparse Hfen. rewrite Board_is_set_fen in Hparse.
  destruct (fen_split b' s Hfen) as [rest Hsplit].
  apply turn_symbol_inj.
  exact (set_fen_turn s b _ _ _ Hparse Hsplit).
Qed.

(** ** [push] hands the move to the other side *)

Lemma is_legal_has_piece (b : Board) (m : Move) :
  is_legal b m = true -> piece_type_at b (from_square m) <> None.
Proof.
  unfold is_legal, is_pseudo_legal. intros H.
  apply andb_prop in H. destruct H as [H _].
  destruct (negb (Move_bool m)); [discriminate H|].
  destruct (is_some (drop m)); [discriminate H|].
  destruct (piece_type_at b (from_square m)); [discriminate | discriminate H].
Qed.

Lemma _to_chess960_from_square (b : Board) (m : Move) :
  from_square (_to_chess960 b m) = from_square m.
Proof.
  unfold _to_chess960.
  destruct ((from_square m =? E1)%Z && nz (kings b .& BB_SQUARES E1)) eqn:H1.
  - apply andb_prop in H1. destruct H1 as [H1 _]. apply Z.eqb_eq in H1.
    destruct ((to_square m =? G1)%Z && negb (nz (rooks b .& BB_SQUARES G1)));
      [now rewrite H1|].
    destruct ((to_square m =? C1)%Z && negb (nz (rooks b .& BB_SQUARES C1)));
      [now rewrite H1 | reflexivity].
  - destruct ((from_square m =? E8)%Z && nz (kings b .& BB_SQUARES E8)) eqn:H8;
      [|reflexivity].
    apply andb_prop in H8. destruct H8 as [H8 _]. apply Z.eqb_eq in H8.
    destruct ((to_square m =? G8)%Z && negb (nz (rooks b .& BB_SQUARES G8)));
      [now rewrite H8|].
    destruct ((to_square m =? C8)%Z && negb (nz (rooks b .& BB_SQUARES C8)));
      [now rewrite H8 | reflexivity].
Qed.

Lemma _remove_piece_at_fst (b : BaseBoard) (square : Square) :
  fst (_remove_piece_at b square) = piece_type_at b square.
Proof.
  unfold _remove_piece_at. now destruct (piece_type_at b square).
Qed.

Lemma push_turn (b : Board) (m : Move) :
  is_legal b m = true -> turn (push b m) = negb (turn b).
Proof.
  intros Hlegal. apply is_legal_has_piece in Hlegal.
  rewrite <- (_to_chess960_from_square b m) in Hlegal.
  rewrite <- _remove_piece_at_fst in Hlegal.
  unfold push. cbv zeta.
  destruct (negb (Move_bool (_to_chess960 b m))); [reflexivity|].
  destruct (drop (_to_chess960 b m)); [reflexivity|].
  destruct (_remove_piece_at b (from_square (_to_chess960 b m)))
    as [[piece_type|] bb]; [reflexivity|].
  now elim Hlegal.
Qed.

(** ** Terminal positions *)

Lemma any_legal_move_false (b : Board) :
  any_legal_move b = false <-> legal_moves b = [].
Proof.
  unfold any_legal_move. destruct (legal_moves b); split; congruence.
Qed.

Lemma is_checkmate_no_moves (b : Board) :
  is_checkmate b = true -> legal_moves b = [].
Proof.
  unfold is_checkmate. intros H. apply any_legal_move_false.
  destruct (negb (is_check b)); [discriminate H|].
  now apply negb_true_iff in H.
Qed.

Lemma is_stalemate_no_moves (b : Board) :
  is_stalemate b = true -> legal_moves b = [].
Proof.
  unfold is_stalemate. intros H. apply any_legal_move_false.
  destruct (is_check b); [discriminate H|].
  now apply negb_true_iff in H.
Qed.

Lemma no_moves_is_game_over (b : Board) :
  legal_moves b = [] -> is_game_over b = true.
Proof.
  intros H. apply any_legal_move_false in H. unfold is_game_over.
  rewrite H. cbn [negb]. now rewrite !orb_true_r.
Qed.

(** ** The moves [from_uci] returns *)

Lemma SQUARE_NAMES_index_In (s : string) (square : Square) :
  SQUARE_NAMES_index s = Some square -> In square SQUARES.
Proof.
  unfold SQUARE_NAMES_index.
  destruct s as [|f [|r [|]]]; try discriminate.
  destruct ((97 <=? nat_of_ascii f)%nat && (nat_of_ascii f <=? 104)%nat
            && (49 <=? nat_of_ascii r)%nat && (nat_of_ascii r <=? 56)%nat)
    eqn:Hrange; [|discriminate].
  intros H. injection H as <-.
  repeat (apply andb_prop in Hrange; destruct Hrange as [Hrange ?]).
  repeat match goal with
         | H : (_ <=? _)%nat = true |- _ => apply Nat.leb_le in H
         end.
  replace (Z.of_nat (nat_of_ascii r - 49) * 8 + Z.of_nat (nat_of_ascii f - 97))%Z
    with (Z.of_nat ((nat_of_ascii r - 49) * 8 + (nat_of_ascii f - 97))) by lia.
  unfold SQUARES. apply in_map. apply in_seq. lia.
Qed.

Lemma from_uci_In (s : string) (m : Move) :
  from_uci s = Ok m -> In m all_uci_moves.
Proof.
  unfold from_uci, all_uci_moves.
  destruct (String.eqb s "0000"); [intros H; injection H as <-; now left|].
  destruct ((String.length s =? 4)%nat && Ascii.eqb "@" (char_at s 1)).
  - destruct (piece_of_symbol (lower (char_at s 0))) as [d|]; [|discriminate].
    destruct (SQUARE_NAMES_index (substring 2 2 s)) as [square|] eqn:Hsq;
      [|discriminate].
    intros H. injection H as <-. right. apply in_or_app. right.
    apply in_flat_map. exists square.
    split; [exact (SQUARE_NAMES_index_In _ _ Hsq)|].
    apply (in_map (fun d => mkMove square square None (Some d))).
    destruct d; cbn [In]; tauto.
  - destruct ((4 <=? String.length s)%nat && (String.length s <=? 5)%nat);
      [|discriminate].
    destruct (SQUARE_NAMES_index (substring 0 2 s)) as [from_sq|] eqn:Hfrom;
      [|discriminate].
    destruct (SQUARE_NAMES_index (substring 2 2 s)) as [to_sq|] eqn:Hto;
      [|discriminate].
    destruct (if (String.length s =? 5)%nat
              then option_map Some (piece_of_symbol (char_at s 4))
              else Some None) as [promo|]; [|discriminate].
    destruct (from_sq =? to_sq)%Z; [discriminate|].
    intros H. injection H as <-. right. apply in_or_app. left.
    apply in_flat_map. exists from_sq.
    split; [exact (SQUARE_NAMES_index_In _ _ Hfrom)|].
    apply in_flat_map. exists to_sq.
    split; [exact (SQUARE_NAMES_index_In _ _ Hto)|].
    apply (in_map (fun promotion => mkMove from_sq to_sq promotion None)).
    unfold all_promotions. destruct promo as [[]|]; cbn [In]; tauto.
Qed.

(** A board on which [is_legal] rejects every move of [all_uci_moves]
    accepts no move string at all. *)
Lemma no_uci_move_legal (b : Board) :
  forallb (fun m => negb (is_legal b m)) all_uci_moves = true ->
  forall s m, from_uci s = Ok m -> is_legal b m = false.
Proof.
  intros Hall s m Hm. rewrite forallb_forall in Hall.
  apply negb_true_iff. apply Hall. exact (from_uci_In s m Hm).
Qed.

(** ** Check and the terminal flags *)

Lemma is_checkmate_in_check (b : Board) :
  is_checkmate b = true -> is_check b = true.
Proof.
  unfold is_checkmate. destruct (is_check b); [reflexivity | discriminate].
Qed.

Lemma is_stalemate_not_in_check (b : Board) :
  is_stalemate b = true -> is_check b = false.
Proof.
  unfold is_stalemate. destruct (is_check b); [discriminate | reflexivity].
Qed.

(** ** UCI strings and moves *)

Lemma PieceType_eqb_eq (a b : PieceType) : PieceType_eqb a b = true -> a = b.
Proof.
  destruct a, b; (reflexivity || discriminate).
Qed.

Lemma option_PieceType_eqb_eq (a b : option PieceType) :
  option_PieceType_eqb a b = true -> a = b.
Proof.
  destruct a as [a|], b as [b|]; cbn; try discriminate; try reflexivity.
  intros H. now rewrite (PieceType_eqb_eq a b H).
Qed.

Lemma Move_eqb_eq (a b : Move) : Move_eqb a b = true -> a = b.
Proof.
  destruct a as [af at_ ap ad], b as [bf bt bp bd]. unfold Move_eqb.
  cbn [from_square to_square promotion drop]. intros H.
  repeat (apply andb_prop in H; destruct H as [H ?]).
  apply Z.eqb_eq in H.
  repeat match goal with
         | H : (_ =? _)%Z = true |- _ => apply Z.eqb_eq in H
         | H : option_PieceType_eqb _ _ = true |- _ =>
             apply option_PieceType_eqb_eq in H
         end.
  congruence.
Qed.

Lemma ascii_in_range (c : ascii) (lo : nat) :
  (lo <= nat_of_ascii c <= lo + 7)%nat ->
  exists k, (k <= 7)%nat /\ c = ascii_of_nat (lo + k).
Proof.
  intros H. exists (nat_of_ascii c - lo)%nat. split; [lia|].
  replace (lo + (nat_of_ascii c - lo))%nat with (nat_of_ascii c) by lia.
  symmetry. apply ascii_nat_embedding.
Qed.

Lemma SQUARE_NAMES_index_inv (s : string) (square : Square) :
  SQUARE_NAMES_index s = Some square -> SQUARE_NAMES square = s.
Proof.
  unfold SQUARE_NAMES_index.
  destruct s as [|f [|r [|]]]; try discriminate.
  destruct ((97 <=? nat_of_ascii f)%nat && (nat_of_ascii f <=? 104)%nat
            && (49 <=? nat_of_ascii r)%nat && (nat_of_ascii r <=? 56)%nat)
    eqn:Hrange; [|discriminate].
  intros H. injection H as <-.
  repeat (apply andb_prop in Hrange; destruct Hrange as [Hrange ?]).
  repeat match goal with
         | H : (_ <=? _)%nat = true |- _ => apply Nat.leb_le in H
         end.
  destruct (ascii_in_range f 97) as (i & Hi & ->); [lia|].
  destruct (ascii_in_range r 49) as (j & Hj & ->); [lia|].
  assert (Hcases : forall n, (n <= 7)%nat ->
            n = 0%nat \/ n = 1%nat \/ n = 2%nat \/ n = 3%nat \/ n = 4%nat
            \/ n = 5%nat \/ n = 6%nat \/ n = 7%nat) by (intros; lia).
  destruct (Hcases i Hi) as [->|[->|[->|[->|[->|[->|[->| ->]]]]]]];
    destruct (Hcases j Hj) as [->|[->|[->|[->|[->|[->|[->| ->]]]]]]];
    vm_compute; reflexivity.
Qed.

Lemma piece_of_symbol_inv (c : ascii) (p : PieceType) :
  piece_of_symbol c = Some p -> piece_symbol p = c.
Proof.
  destruct c as [[] [] [] [] [] [] [] []]; cbn; intros H;
    try discriminate H; injection H as <-; reflexivity.
Qed.

(** Decoding then encoding gives the string back. *)
Lemma uci_from_uci (s : string) (m : Move) :
  from_uci s = Ok m -> drop m = None -> uci m = s.
Proof.
  unfold from_uci.
  destruct (String.eqb_spec s "0000") as [->|_];
    [intros H _; injection H as <-; reflexivity|].
  destruct ((String.length s =? 4)%nat && Ascii.eqb "@" (char_at s 1)).
  { destruct (piece_of_symbol (lower (char_at s 0))); [|discriminate].
    destruct (SQUARE_NAMES_index (substring 2 2 s)); [|discriminate].
    intros H Hdrop. injection H as <-. discriminate Hdrop. }
  destruct ((4 <=? String.length s)%nat && (String.length s <=? 5)%nat)
    eqn:Hlen; [|discriminate].
  destruct (SQUARE_NAMES_index (substring 0 2 s)) as [f|] eqn:Hf;
    [|discriminate].
  destruct (SQUARE_NAMES_index (substring 2 2 s)) as [t|] eqn:Ht;
    [|discriminate].
  apply SQUARE_NAMES_index_inv in Hf. apply SQUARE_NAMES_index_inv in Ht.
  destruct (if (String.length s =? 5)%nat
            then option_map Some (piece_of_symbol (char_at s 4))
            else Some None) as [promo|] eqn:Hpromo; [|discriminate].
  destruct (f =? t)%Z eqn:Hft; [discriminate|].
  intros H _. injection H as <-.
  assert (Hbool : Move_bool (mkMove f t None None) = true).
  { unfold Move_bool, nz. cbn [from_square to_square promotion drop is_some].
    apply Z.eqb_neq in Hft.
    destruct (f =? 0)%Z eqn:Hf0, (t =? 0)%Z eqn:Ht0; try reflexivity.
    apply Z.eqb_eq in Hf0, Ht0. congruence. }
  destruct s as [|c0 [|c1 [|c2 [|c3 [|c4 [|c5 s']]]]]];
    cbn in Hlen; try discriminate Hlen.
  - cbn in Hpromo. injection Hpromo as <-.
    unfold uci. cbn [drop promotion from_square to_square].
    rewrite Hbool, Hf, Ht. reflexivity.
  - cbn in Hpromo.
    destruct (piece_of_symbol c4) as [p|] eqn:Hp; [|discriminate Hpromo].
    cbn in Hpromo. injection Hpromo as <-.
    apply piece_of_symbol_inv in Hp.
    unfold uci. cbn [drop promotion from_square to_square].
    rewrite Hf, Ht, Hp. reflexivity.
Qed.

Lemma plain_moves_round_trip :
  forallb uci_round_trips plain_moves = true.
Proof.
  vm_compute. reflexivity.
Qed.

(** Encoding then decoding gives the move back. *)
Lemma from_uci_uci (m : Move) :
  In (from_square m) SQUARES -> In (to_square m) SQUARES ->
  from_square m <> to_square m -> drop m = None ->
  from_uci (uci m) = Ok m.
Proof.
  destruct m as [f t p d]. cbn [from_square to_square drop].
  intros Hf Ht Hft ->.
  pose proof plain_moves_round_trip as Hall.
  rewrite forallb_forall in Hall.
  assert (Hin : In (mkMove f t p None) plain_moves).
  { unfold plain_moves. apply in_flat_map. exists f. split; [exact Hf|].
    apply in_flat_map. exists t. split; [exact Ht|].
    apply Z.eqb_neq in Hft. rewrite Hft.
    apply (in_map (fun promotion => mkMove f t promotion None)).
    unfold all_promotions. destruct p as [[]|]; cbn [In]; tauto. }
  specialize (Hall _ Hin). unfold uci_round_trips in Hall.
  destruct (from_uci (uci (mkMove f t p None))) as [m'|];
    [|discriminate Hall].
  now rewrite (Move_eqb_eq _ _ Hall).
Qed.

(** ** Positions that [set_fen] rejects *)

Lemma validate_row_error (row : string) :
  forall field_sum pd pp e,
    validate_row row field_sum pd pp = Raise e -> e = ValueError.
Proof.
  induction row as [|c row IH]; intros field_sum pd pp e; cbn [validate_row];
    [discriminate|].
  destruct (is_fen_digit c).
  { destruct pd; [intros H; now injection H | apply IH]. }
  destruct (Ascii.eqb c "~").
  { destruct (negb pp); [intros H; now injection H | apply IH]. }
  destruct (is_some (piece_of_symbol (lower c)));
    [apply IH | intros H; now injection H].
Qed.

Lemma check_error (cond : bool) (e : exn) :
  check cond = Raise e -> e = ValueError.
Proof.
  destruct cond; cbn; [discriminate | intros H; now injection H].
Qed.

Lemma validate_rows_error (rows : list string) (e : exn) :
  validate_rows rows = Raise e -> e = ValueError.
Proof.
  induction rows as [|row rows IH]; cbn [validate_rows]; [discriminate|].
  destruct (validate_row row 0 false false) as [field_sum|e'] eqn:Hrow;
    cbn [bind].
  - destruct (check (field_sum =? 8)%Z) as [[]|e''] eqn:Hcheck; cbn [bind].
    + exact IH.
    + intros H. injection H as <-. exact (check_error _ _ Hcheck).
  - intros H. injection H as <-. exact (validate_row_error _ _ _ _ _ Hrow).
Qed.

Lemma _set_board_fen_error (fen : string) (e : exn) :
  _set_board_fen fen = Raise e -> e = ValueError.
Proof.
  unfold _set_board_fen.
  destruct (check (List.length (split_on "/" fen) =? 8)%nat) as [[]|e']
    eqn:Hcheck; cbn [bind].
  - destruct (validate_rows (split_on "/" fen)) as [[]|e''] eqn:Hrows;
      cbn [bind]; [discriminate|].
    intros H. injection H as <-. exact (validate_rows_error _ _ Hrows).
  - intros H. injection H as <-. exact (check_error _ _ Hcheck).
Qed.

Ltac raise_bind H :=
  match type of H with
  | bind ?x _ = Raise _ =>
      let a := fresh "a" in
      let Hx := fresh "Hx" in
      destruct x as [a|] eqn:Hx; cbn [bind] in H;
      [| injection H as <-;
         first [ exact (check_error _ _ Hx)
               | exact (_set_board_fen_error _ _ Hx)
               | repeat match type of Hx with
                        | context [match ?y with _ => _ end] => destruct y
                        end;
                 first [discriminate Hx | now injection Hx] ] ]
  | (let '(_, _) := pop0 ?l in _) = Raise _ =>
      destruct (pop0 l) as [? ?]
  end.

(** Whatever [set_fen] raises is a [ValueError]. *)
Lemma set_fen_error (s : string) (e : exn) :
  set_fen s = Raise e -> e = ValueError.
Proof.
  unfold set_fen. intros H.
  destruct (pop0 (split s)) as [[board_part|] parts];
    [|now injection H].
  repeat raise_bind H. discriminate H.
Qed.

Lemma Board_error (s : string) (e : exn) :
  Board_ s = Raise e -> e = ValueError.
Proof.
  rewrite Board_is_set_fen. apply set_fen_error.
Qed.

Lemma split_aux_all_space (s : string) :
  all_space s = true -> split_aux s EmptyString = [].
Proof.
  induction s as [|c s IH]; cbn [all_space split_aux]; [reflexivity|].
  intros H. apply andb_prop in H. destruct H as [Hc Hs].
  rewrite Hc. exact (IH Hs).
Qed.

Lemma set_fen_no_field (s : string) :
  split s = [] -> set_fen s = Raise ValueError.
Proof.
  intros H. unfold set_fen. rewrite H. reflexivity.
Qed.

Lemma set_fen_bad_turn (s board_part turn_part : string) (rest : list string) :
  split s = board_part :: turn_part :: rest ->
  turn_part <> "w"%string -> turn_part <> "b"%string ->
  set_fen s = Raise ValueError.
Proof.
  intros H Hw Hb. unfold set_fen. rewrite H. cbn [pop0].
  apply String.eqb_neq in Hw, Hb. rewrite Hw, Hb. reflexivity.
Qed.

Lemma set_fen_too_many_fields (s : string) :
  (6 < List.length (split s))%nat -> set_fen s = Raise ValueError.
Proof.
  intros Hlen.
  destruct (set_fen s) as [b|e] eqn:H;
    [exfalso | now rewrite (set_fen_error s e H)].
  unfold set_fen in H.
  destruct (split s) as [|f1 [|f2 [|f3 [|f4 [|f5 [|f6 [|f7 rest]]]]]]];
    cbn [List.length] in Hlen; try lia.
  cbn [pop0] in H. repeat (step_bind H; cbn [pop0] in H).
  match goal with
  | Hc : check _ = Ok _ |- _ => cbn in Hc; discriminate Hc
  end.
Qed.

Lemma set_fen_bad_rows (s board_part : string) (rest : list string) :
  split s = board_part :: rest ->
  List.length (split_on "/" board_part) <> 8%nat ->
  set_fen s = Raise ValueError.
Proof.
  intros Hs Hrows.
  destruct (set_fen s) as [b|e] eqn:H;
    [exfalso | now rewrite (set_fen_error s e H)].
  unfold set_fen in H. rewrite Hs in H. cbn [pop0] in H.
  repeat (step_bind H; cbn [pop0] in H).
  match goal with
  | Hb : _set_board_fen board_part = Ok _ |- _ =>
      unfold _set_board_fen in Hb;
      apply Nat.eqb_neq in Hrows; rewrite Hrows in Hb;
      cbn in Hb; discriminate Hb
  end.
Qed.

(** ** Moves that are never legal *)

Lemma is_legal_null (b : Board) (m : Move) :
  Move_bool m = false -> is_legal b m = false.
Proof.
  intros H. unfold is_legal, is_pseudo_legal. now rewrite H.
Qed.

Lemma is_legal_drop (b : Board) (m : Move) :
  drop m <> None -> is_legal b m = false.
Proof.
  intros H. unfold is_legal, is_pseudo_legal.
  destruct (negb (Move_bool m)); [reflexivity|].
  destruct (drop m); [reflexivity | now elim H].
Qed.

Lemma from_uci_length (s : string) (m : Move) :
  from_uci s = Ok m -> (4 <= String.length s <= 5)%nat.
Proof.
  unfold from_uci.
  destruct (String.eqb_spec s "0000") as [->|_]; [cbn; lia|].
  destruct ((String.length s =? 4)%nat && Ascii.eqb "@" (char_at s 1))
    eqn:Hdrop.
  - apply andb_prop in Hdrop. destruct Hdrop as [Hlen _].
    apply Nat.eqb_eq in Hlen. lia.
  - destruct ((4 <=? String.length s)%nat && (String.length s <=? 5)%nat)
      eqn:Hlen; [|discriminate].
    apply andb_prop in Hlen. destruct Hlen as [H4 H5].
    apply Nat.leb_le in H4, H5. lia.
Qed.

(** The generator never promotes to a king or a pawn. *)

Lemma pawn_moves_to_promotion (from_sq to_sq : Square) (m : Move) :
  In m (pawn_moves_to from_sq to_sq) -> playable_promotion (promotion m) = true.
Proof.
  unfold pawn_moves_to.
  destruct ((square_rank to_sq =? 0)%Z || (square_rank to_sq =? 7)%Z);
    cbn [In]; intros H;
    repeat (destruct H as [<-|H]; [reflexivity|]); contradiction.
Qed.

Lemma _from_chess960_promotion (b : Board) (from_sq to_sq : Square) :
  promotion (_from_chess960 b from_sq to_sq None None) = None.
Proof.
  unfold _from_chess960. cbn [is_some negb andb].
  repeat match goal with
         | |- context [if ?c then _ else _] => destruct c
         end; reflexivity.
Qed.

Lemma generate_castling_moves_promotion (b : Board) (fm tm : Bitboard)
    (m : Move) :
  In m (generate_castling_moves b fm tm) ->
  playable_promotion (promotion m) = true.
Proof.
  unfold generate_castling_moves. cbv zeta.
  match goal with
  | |- context [if negb (nz ?k) then _ else _] => destruct (negb (nz k))
  end; [contradiction|].
  intros H. apply in_flat_map in H. destruct H as (candidate & _ & H).
  match type of H with
  | In _ (if ?c then _ else _) => destruct c
  end; [|contradiction].
  destruct H as [<-|[]]. now rewrite _from_chess960_promotion.
Qed.

Lemma generate_pseudo_legal_ep_promotion (b : Board) (fm tm : Bitboard)
    (m : Move) :
  In m (generate_pseudo_legal_ep b fm tm) ->
  playable_promotion (promotion m) = true.
Proof.
  unfold generate_pseudo_legal_ep.
  destruct (ep_square b) as [ep|]; [|contradiction].
  destruct (negb (nz ep) || negb (nz (BB_SQUARES ep .& tm)));
    [contradiction|].
  destruct (nz (BB_SQUARES ep .& occupied b)); [contradiction|].
  intros H. apply in_map_iff in H. destruct H as (capturer & <- & _).
  reflexivity.
Qed.

Lemma generate_pseudo_legal_moves_promotion (b : Board) (fm tm : Bitboard)
    (m : Move) :
  In m (generate_pseudo_legal_moves b fm tm) ->
  playable_promotion (promotion m) = true.
Proof.
  unfold generate_pseudo_legal_moves. cbv zeta.
  assert (Hpieces : forall (l : list Square) (f : Square -> Bitboard),
            In m (flat_map
                    (fun from_sq =>
                       map (fun to_sq => Move_ from_sq to_sq)
                           (scan_reversed (f from_sq))) l) ->
            playable_promotion (promotion m) = true).
  { intros l f H. apply in_flat_map in H. destruct H as (from_sq & _ & H).
    apply in_map_iff in H. destruct H as (to_sq & <- & _). reflexivity. }
  assert (Hcastle : forall c : bool,
            In m (if c then generate_castling_moves b fm tm else []) ->
            playable_promotion (promotion m) = true).
  { intros [] H; [exact (generate_castling_moves_promotion _ _ _ _ H)|].
    contradiction. }
  match goal with
  | |- context [if negb (nz ?p) then _ else _] => destruct (negb (nz p))
  end; intros H.
  - apply in_app_or in H. destruct H as [H|H];
      [exact (Hpieces _ _ H) | exact (Hcastle _ H)].
  - apply in_app_or in H. destruct H as [H|H]; [exact (Hpieces _ _ H)|].
    apply in_app_or in H. destruct H as [H|H]; [exact (Hcastle _ H)|].
    apply in_app_or in H. destruct H as [H|H].
    { apply in_flat_map in H. destruct H as (from_sq & _ & H).
      apply in_flat_map in H. destruct H as (to_sq & _ & H).
      exact (pawn_moves_to_promotion _ _ _ H). }
    apply in_app_or in H. destruct H as [H|H].
    { apply in_flat_map in H. destruct H as (to_sq & _ & H).
      exact (pawn_moves_to_promotion _ _ _ H). }
    apply in_app_or in H. destruct H as [H|H].
    { apply in_map_iff in H. destruct H as (to_sq & <- & _). reflexivity. }
    destruct (ep_square b) as [ep|]; [|contradiction].
    destruct (nz ep); [|contradiction].
    exact (generate_pseudo_legal_ep_promotion _ _ _ _ H).
Qed.

Lemma Move_in_In (m : Move) (l : list Move) : Move_in m l = true -> In m l.
Proof.
  unfold Move_in. intros H. apply existsb_exists in H.
  destruct H as (x & Hx & Heq). now rewrite (Move_eqb_eq m x Heq).
Qed.

Lemma is_legal_promotion (b : Board) (m : Move) :
  playable_promotion (promotion m) = false -> is_legal b m = false.
Proof.
  intros Hpromo. unfold is_legal.
  assert (Hpseudo : is_pseudo_legal b m = false); [|now rewrite Hpseudo].
  assert (Hsome : is_some (promotion m) = true)
    by (destruct (promotion m) as [[]|]; (reflexivity || discriminate Hpromo)).
  unfold is_pseudo_legal.
  destruct (negb (Move_bool m)); [reflexivity|].
  destruct (is_some (drop m)); [reflexivity|].
  destruct (piece_type_at b (from_square m)) as [piece|]; [|reflexivity].
  cbv zeta.
  destruct (negb (nz (occupied_co b (turn b) .& BB_SQUARES (from_square m))));
    [reflexivity|].
  rewrite Hsome. cbn [andb].
  destruct piece; cbn [PieceType_eqb negb orb andb]; try reflexivity.
  destruct (if turn b
            then negb (square_rank (to_square m) =? 7)%Z
            else negb (square_rank (to_square m) =? 0)%Z); [reflexivity|].
  destruct (nz (occupied_co b (turn b) .& BB_SQUARES (to_square m)));
    [reflexivity|].
  destruct (Move_in m
              (generate_pseudo_legal_moves b (BB_SQUARES (from_square m))
                 (BB_SQUARES (to_square m)))) eqn:Hin; [|reflexivity].
  apply Move_in_In in Hin.
  apply generate_pseudo_legal_moves_promotion in Hin. congruence.
Qed.

End PyChessFacts.

(** [PyChess] keeps the contract. *)

#[export] Instance PyChessLaws : RulesEngineLaws PyChessEngine.
Proof.
  split.
  - exact PyChessFacts.is_checkmate_no_moves.
  - exact PyChessFacts.is_stalemate_no_moves.
  - exact PyChessFacts.no_moves_is_game_over.
  - exact PyChessFacts.push_turn.
  - exact PyChessFacts.fen_turn.
Qed.

(** * Properties of the handlers *)

Section HandlerFacts.

Context {E : RulesEngine}.

(** The three ways out of [make_move] once the board has parsed: the
    move is pushed and the new board written; the move is pushed and
    [fen()] raises; the move is not pushed. *)

Lemma make_move_pushed (req : MoveRequest) (board : BoardT) (move : MoveT)
    (new_fen : string) :
  Board_new (mr_fen req) = Ok board ->
  Move_from_uci (mr_move req) = Ok move ->
  legal_moves_contains board move = true ->
  Board_fen (Board_push board move) = Ok new_fen ->
  make_move req =
    Ok (("fen", VStr new_fen)
          :: ("valid", VBool true)
          :: state_fields (Board_push board move)).
Proof.
  intros Hboard Hmove Hlegal Hfen. unfold make_move, make_move_try.
  now rewrite Hboard, Hmove, Hlegal, Hfen.
Qed.


Lemma make_move_fallback (req : MoveRequest) (board : BoardT) :
  Board_new (mr_fen req) = Ok board ->
  (forall move, Move_from_uci (mr_move req) = Ok move ->
                legal_moves_contains board move = false) ->
  make_move req =
    Ok (("fen", VStr (mr_fen req))
          :: ("valid", VBool false)
          :: state_fields board).
Proof.
  intros Hboard Hillegal. unfold make_move, make_move_try. rewrite Hboard.
  destruct (Move_from_uci (mr_move req)) as [move|e]; [|reflexivity].
  now rewrite (Hillegal move eq_refl).
Qed.

(** Every body of [make_move] is a [fen], a [valid] and the state of one
    board. *)
Lemma make_move_shape (req : MoveRequest) (board : BoardT) :
  Board_new (mr_fen req) = Ok board ->
  exists s valid board',
    make_move req =
      Ok (("fen", VStr s) :: ("valid", VBool valid) :: state_fields board').
Proof.
  intros Hboard. unfold make_move, make_move_try. rewrite Hboard.
  destruct (Move_from_uci (mr_move req)) as [move|]; [|eauto].
  destruct (legal_moves_contains board move); [|eauto].
  destruct (Board_fen (Board_push board move)); eauto.
Qed.

(** The handlers on the heap: each one works on the object it has just
    allocated, so its response is the one computed on board values, and
    it leaves the objects it found as they were. *)

Lemma object_new (h : heap) (b : BoardT) :
  object (h ++ [b])%list (List.length h) = b.
Proof.
  unfold object. rewrite app_nth2 by lia.
  now rewrite Nat.sub_diag.
Qed.

Lemma set_object_new (h : heap) (b b' : BoardT) :
  set_object (List.length h) b' (h ++ [b])%list = (h ++ [b'])%list.
Proof.
  unfold set_object.
  rewrite firstn_app, Nat.sub_diag, firstn_all. cbn [firstn].
  rewrite app_nil_r.
  rewrite skipn_all2 by (rewrite length_app; cbn [List.length]; lia).
  reflexivity.
Qed.

Lemma make_move_on_spec (req : MoveRequest) (h : heap) :
  fst (make_move_on req h) = make_move req
  /\ exists allocated, snd (make_move_on req h) = (h ++ allocated)%list.
Proof.
  unfold make_move_on, make_move, make_move_try, new_object.
  destruct (Board_new (mr_fen req)) as [b|e];
    [|split; [reflexivity | exists []; now rewrite app_nil_r]].
  destruct (Move_from_uci (mr_move req)) as [move|e].
  - rewrite object_new.
    destruct (legal_moves_contains b move).
    + rewrite set_object_new, object_new.
      destruct (Board_fen (Board_push b move)); cbn [fst snd];
        rewrite ?object_new; split; (reflexivity || eauto).
    + cbn [fst snd]. rewrite object_new. split; (reflexivity || eauto).
  - cbn [fst snd]. rewrite object_new. split; (reflexivity || eauto).
Qed.

Lemma get_fen_info_on_spec (req : FenRequest) (h : heap) :
  fst (get_fen_info_on req h) = get_fen_info req
  /\ exists allocated, snd (get_fen_info_on req h) = (h ++ allocated)%list.
Proof.
  unfold get_fen_info_on, get_fen_info, new_object.
  destruct (Board_new (fr_fen req)) as [b|e]; cbn [fst snd].
  - rewrite object_new. split; (reflexivity || eauto).
  - split; [reflexivity | exists []; now rewrite app_nil_r].
Qed.

Lemma reset_game_on_spec (h : heap) :
  fst (reset_game_on h) = reset_game
  /\ exists allocated, snd (reset_game_on h) = (h ++ allocated)%list.
Proof.
  unfold reset_game_on, reset_game, new_object. cbv zeta.
  rewrite object_new.
  destruct (Board_fen Board_init); cbn [fst snd]; split;
    (reflexivity || eauto).
Qed.

Lemma handle_on_spec (r : request) (h : heap) :
  fst (handle_on r h) = handle r
  /\ exists allocated, snd (handle_on r h) = (h ++ allocated)%list.
Proof.
  destruct r as [req|req|]; cbn [handle_on handle].
  - apply make_move_on_spec.
  - apply get_fen_info_on_spec.
  - apply reset_game_on_spec.
Qed.

Lemma serve_on_spec (trace : list request) :
  forall h,
    fst (serve_on trace h) = map handle trace
    /\ exists allocated, snd (serve_on trace h) = (h ++ allocated)%list.
Proof.
  induction trace as [|r trace IH]; intros h; cbn [serve_on map].
  - split; [reflexivity | exists []; now rewrite app_nil_r].
  - destruct (handle_on_spec r h) as [Hr (a1 & Hh)].
    destruct (handle_on r h) as [response h1]. cbn [fst snd] in Hr, Hh.
    destruct (IH h1) as [Hrs (a2 & Hh2)].
    destruct (serve_on trace h1) as [responses h2]. cbn [fst snd] in *.
    split; [now rewrite Hr, Hrs|].
    exists (a1 ++ a2)%list. now rewrite Hh2, Hh, app_assoc.
Qed.

Lemma state_fields_consistent {L : RulesEngineLaws E} (board : BoardT)
    (prefix : body) :
  (forall k v, In (k, v) prefix ->
     k <> "legal_moves" /\ k <> "is_check" /\ k <> "is_checkmate"
     /\ k <> "is_stalemate" /\ k <> "is_game_over") ->
  terminal_consistent (prefix ++ state_fields board)%list.
Proof.
  intros Hprefix.
  assert (Hget : forall k,
            In k ["legal_moves"; "is_check"; "is_checkmate"; "is_stalemate";
                  "is_game_over"] ->
            get k (prefix ++ state_fields board)%list
            = get k (state_fields board)).
  { intros k Hk. induction prefix as [|[k' v] prefix IH]; [reflexivity|].
    cbn [app get].
    destruct (String.eqb_spec k k') as [->|_].
    - exfalso. destruct (Hprefix k' v (or_introl eq_refl))
        as (H1 & H2 & H3 & H4 & H5).
      cbn [In] in Hk. intuition congruence.
    - apply IH. intros k0 v0 H0. apply (Hprefix k0 v0). now right. }
  unfold terminal_consistent.
  rewrite !Hget by (cbn [In]; tauto).
  unfold state_fields; cbn [get String.eqb Ascii.eqb Bool.eqb].
  split; intros H; injection H as H.
  - apply checkmate_no_moves in H.
    now rewrite (no_moves_game_over _ H), H.
  - apply stalemate_no_moves in H.
    now rewrite (no_moves_game_over _ H), H.
Qed.

End HandlerFacts.

Section HandlerProperties.

Context {E : RulesEngine}.


(** C2.  POST /move with a position that parses and a move string that
    does not parse or parses to a move outside the legal-move set: the
    handler returns [valid: false], the [fen] field is the input string
    itself, and the legal moves and the four state flags are those of the
    board parsed from the input, before any move. *)
Theorem make_move_illegal (req : MoveRequest) (board : BoardT) :
  Board_new (mr_fen req) = Ok board ->
  (forall move, Move_from_uci (mr_move req) = Ok move ->
                legal_moves_contains board move = false) ->
  make_move req =
    Ok [ ("fen", VStr (mr_fen req));
         ("valid", VBool false);
         ("legal_moves", VList (map Move_uci (legal_moves_iter board)));
         ("is_check", VBool (Board_is_check board));
         ("is_checkmate", VBool (Board_is_checkmate board));
         ("is_stalemate", VBool (Board_is_stalemate board));
         ("is_game_over", VBool (Board_is_game_over board)) ].
Proof.
  intros Hboard Hillegal.
  exact (make_move_fallback req board Hboard Hillegal).
Qed.

(** C3.  POST /move with a position that does not parse: the exception
    of the parse leaves the handler, whatever the move string is; no
    response body is returned, in particular none with [valid: false]. *)
Theorem make_move_unparsed_position (req : MoveRequest) (e : exn) :
  Board_new (mr_fen req) = Raise e ->
  make_move req = Raise e
  /\ forall response, make_move req <> Ok response.
Proof.
  intros Hboard. unfold make_move. rewrite Hboard.
  split; [reflexivity | discriminate].
Qed.

(** C4.  POST /fen never lets an exception out.  On a position that does
    not parse it returns exactly [{valid: false, error: "Invalid FEN"}];
    on one that parses it returns [valid: true] with the legal moves and
    the four state flags of the parsed board. *)
Theorem get_fen_info_spec (req : FenRequest) :
  (exists response, get_fen_info req = Ok response)
  /\ (forall e, Board_new (fr_fen req) = Raise e ->
        get_fen_info req
        = Ok [ ("valid", VBool false); ("error", VStr "Invalid FEN") ])
  /\ (forall board, Board_new (fr_fen req) = Ok board ->
        get_fen_info req
        = Ok [ ("valid", VBool true);
               ("legal_moves", VList (map Move_uci (legal_moves_iter board)));
               ("is_check", VBool (Board_is_check board));
               ("is_checkmate", VBool (Board_is_checkmate board));
               ("is_stalemate", VBool (Board_is_stalemate board));
               ("is_game_over", VBool (Board_is_game_over board)) ]).
Proof.
  unfold get_fen_info. repeat split.
  - destruct (Board_new (fr_fen req)); eexists; reflexivity.
  - intros e He. now rewrite He.
  - intros board Hboard. now rewrite Hboard.
Qed.


(** C8.  POST /fen is idempotent and carries no state.  In a run of the
    service over one heap of board objects, from any heap to start with,
    two /fen requests with the same position get the same response,
    which is the response the handler gives on an empty heap; the
    handler's response is the same on every heap; and the run leaves
    every object it found as it was, only allocating new ones. *)
Theorem get_fen_info_idempotent (trace : list request) (h : heap) (i j : nat)
    (req : FenRequest) :
  nth_error trace i = Some (PostFen req) ->
  nth_error trace j = Some (PostFen req) ->
  nth_error (fst (serve_on trace h)) i = nth_error (fst (serve_on trace h)) j
  /\ nth_error (fst (serve_on trace h)) i
     = Some (fst (get_fen_info_on req []))
  /\ (forall h', fst (get_fen_info_on req h') = fst (get_fen_info_on req h))
  /\ exists allocated, snd (serve_on trace h) = (h ++ allocated)%list.
Proof.
  intros Hi Hj. destruct (serve_on_spec trace h) as [Hresponses Hframe].
  rewrite Hresponses, !nth_error_map, Hi, Hj. cbn [option_map handle].
  split; [reflexivity|].
  split; [now rewrite (proj1 (get_fen_info_on_spec req []))|].
  split; [|exact Hframe].
  intros h'. now rewrite !(proj1 (get_fen_info_on_spec req _)).
Qed.

(** C9, for the checkmate and stalemate flags.  In every response of
    the three handlers, [is_checkmate: true] comes with
    [is_game_over: true] and an empty [legal_moves], and so does
    [is_stalemate: true]. *)
Theorem terminal_flags_consistent {L : RulesEngineLaws E}
    (r : request) (response : body) :
  handle r = Ok response ->
  (get "is_checkmate" response = Some (VBool true) ->
   get "is_game_over" response = Some (VBool true)
   /\ get "legal_moves" response = Some (VList []))
  /\ (get "is_stalemate" response = Some (VBool true) ->
      get "is_game_over" response = Some (VBool true)
      /\ get "legal_moves" response = Some (VList [])).
Proof.
  intros Hr. change (terminal_consistent response).
  assert (Hfen : forall s valid board,
            terminal_consistent
              (("fen", VStr s) :: ("valid", VBool valid) :: state_fields board)).
  { intros s valid board.
    apply (state_fields_consistent board
             [("fen", VStr s); ("valid", VBool valid)]).
    intros k v [H|[H|[]]]; injection H as <- <-; repeat split; discriminate. }
  destruct r as [req|req|]; cbn [handle] in Hr.
  - destruct (Board_new (mr_fen req)) as [board|] eqn:Hboard;
      [|unfold make_move in Hr; rewrite Hboard in Hr; discriminate Hr].
    destruct (make_move_shape req board Hboard) as (s & valid & board' & Heq).
    rewrite Heq in Hr. injection Hr as <-. apply Hfen.
  - unfold get_fen_info in Hr.
    destruct (Board_new (fr_fen req)) as [board|]; injection Hr as <-.
    + apply (state_fields_consistent board [("valid", VBool true)]).
      intros k v [H|[]]; injection H as <- <-; repeat split; discriminate.
    + split; discriminate.
  - unfold reset_game in Hr. cbv zeta in Hr.
    destruct (Board_fen Board_init); [|discriminate Hr].
    injection Hr as <-. split; discriminate.
Qed.

(** X1.  POST /fen does not echo its input: two position strings that
    parse to the same board get the same response. *)
Theorem get_fen_info_of_board (req1 req2 : FenRequest) (board : BoardT) :
  Board_new (fr_fen req1) = Ok board ->
  Board_new (fr_fen req2) = Ok board ->
  get_fen_info req1 = get_fen_info req2.
Proof.
  intros H1 H2. unfold get_fen_info. now rewrite H1, H2.
Qed.

(** X2.  POST /move with a position that parses always returns a body.
    Its [valid] is [true] exactly when the move string parses to a member
    of the legal-move set and the board after the move can be written;
    it is [false] otherwise, in which case [fen] is the input
    position. *)
Theorem make_move_valid_iff (req : MoveRequest) (board : BoardT) :
  Board_new (mr_fen req) = Ok board ->
  exists response,
    make_move req = Ok response
    /\ (get "valid" response = Some (VBool true)
        <-> exists move new_fen,
              Move_from_uci (mr_move req) = Ok move
              /\ legal_moves_contains board move = true
              /\ Board_fen (Board_push board move) = Ok new_fen)
    /\ (get "valid" response = Some (VBool true)
        \/ (get "valid" response = Some (VBool false)
            /\ get "fen" response = Some (VStr (mr_fen req)))).
Proof.
  intros Hboard. unfold make_move, make_move_try. rewrite Hboard.
  destruct (Move_from_uci (mr_move req)) as [move|e] eqn:Hmove.
  - destruct (legal_moves_contains board move) eqn:Hlegal.
    + destruct (Board_fen (Board_push board move)) as [new_fen|e] eqn:Hfen;
        eexists; (split; [reflexivity|]);
        cbn [get String.eqb Ascii.eqb Bool.eqb].
      * split; [|now left]. split; [|reflexivity].
        intros _. now exists move, new_fen.
      * split; [|right; now split]. split; [discriminate|].
        intros (move' & new_fen & Hmove' & _ & Hfen').
        injection Hmove' as <-. congruence.
    + eexists. split; [reflexivity|].
      cbn [get String.eqb Ascii.eqb Bool.eqb].
      split; [|right; now split]. split; [discriminate|].
      intros (move' & new_fen & Hmove' & Hlegal' & _). congruence.
  - eexists. split; [reflexivity|]. cbn [get String.eqb Ascii.eqb Bool.eqb].
    split; [|right; now split]. split; [discriminate|].
    intros (move' & new_fen & Hmove' & _). discriminate Hmove'.
Qed.

End HandlerProperties.

(** * The service on the chess engine *)

Lemma reset_game_queried_eq (E : RulesEngine) :
  Board_is_check Board_init = false ->
  Board_is_checkmate Board_init = false ->
  Board_is_stalemate Board_init = false ->
  Board_is_game_over Board_init = false ->
  @reset_game E = @reset_game_queried E.
Proof.
  intros Hc Hm Hs Hg. unfold reset_game, reset_game_queried, state_fields.
  cbv zeta. destruct (Board_fen Board_init) as [fen|e]; [|reflexivity].
  now rewrite Hc, Hm, Hs, Hg.
Qed.

Lemma In_opening_moves (m : string) :
  In m (map PyChess.uci (PyChess.legal_moves PyChess.reset))
  <-> In m opening_moves.
Proof.
  replace (map PyChess.uci (PyChess.legal_moves PyChess.reset))
    with [ "g1h3"; "g1f3"; "b1c3"; "b1a3"; "h2h3"; "g2g3"; "f2f3"; "e2e3";
           "d2d3"; "c2c3"; "b2b3"; "a2a3"; "h2h4"; "g2g4"; "f2f4"; "e2e4";
           "d2d4"; "c2c4"; "b2b4"; "a2a4" ]
    by (vm_compute; reflexivity).
  unfold opening_moves.
  split; intros H; cbn [In] in H;
    repeat (destruct H as [H|H];
            [subst m; cbn [In];
             repeat (first [left; reflexivity | right]) |]);
    contradiction.
Qed.

(** C5.  GET /reset never fails, and on the chess engine it returns the
    standard starting FEN, the twenty opening moves (twenty entries, no
    duplicate, the same moves as [opening_moves]) and four flags that are
    all false. *)
Theorem reset_game_start :
  (forall E : RulesEngine, exists response, @reset_game E = Ok response)
  /\ exists moves : list string,
       @reset_game PyChessEngine =
         Ok [ ("fen",
               VStr "rnbqkbnr/pppppppp/8/8/8/8/PPPPPPPP/RNBQKBNR w KQkq - 0 1");
              ("legal_moves", VList moves);
              ("is_check", VBool false);
              ("is_checkmate", VBool false);
              ("is_stalemate", VBool false);
              ("is_game_over", VBool false) ]
       /\ moves
          = [ "g1h3"; "g1f3"; "b1c3"; "b1a3"; "h2h3"; "g2g3"; "f2f3"; "e2e3";
              "d2d3"; "c2c3"; "b2b3"; "a2a3"; "h2h4"; "g2g4"; "f2f4"; "e2e4";
              "d2d4"; "c2c4"; "b2b4"; "a2a4" ]
       /\ List.length moves = 20%nat
       /\ (forall m, In m moves <-> In m opening_moves).
Proof.
  split.
  - intros E. unfold reset_game. cbv zeta.
    destruct (@Board_init_fen_ok E) as [fen Hfen]. rewrite Hfen.
    eexists. reflexivity.
  - exists (map PyChess.uci (PyChess.legal_moves PyChess.reset)).
    split; [vm_compute; reflexivity|].
    split; [vm_compute; reflexivity|].
    split; [vm_compute; reflexivity|].
    exact In_opening_moves.
Qed.

(** The mated position of fool's mate: it parses, it accepts no move
    string, and it is a checkmate without legal moves. *)
Lemma fools_mate_position :
  exists board : PyChess.Board,
    PyChess.Board_
      "rnb1kbnr/pppp1ppp/8/4p3/6Pq/5P2/PPPPP2P/RNBQKBNR w KQkq - 1 3"
    = Ok board
    /\ forallb (fun m => negb (PyChess.is_legal board m)) PyChess.all_uci_moves
       = true
    /\ @state_fields PyChessEngine board
       = [ ("legal_moves", VList []);
           ("is_check", VBool true);
           ("is_checkmate", VBool true);
           ("is_stalemate", VBool false);
           ("is_game_over", VBool true) ].
Proof.
  eexists. split; [vm_compute; reflexivity|].
  split; vm_compute; reflexivity.
Qed.

(** C7.  Fool's mate.  From the position after 1. f3 e5 2. g4 the legal
    move d8h4 mates: the response carries the mated position,
    [is_checkmate: true], [is_game_over: true] and no legal move.  The
    mated position itself accepts no further move: whatever move string is
    posted with it, the response reports the same checkmate, game over and
    empty list of legal moves. *)
Theorem fools_mate :
  @make_move PyChessEngine
    (mkMoveRequest
       "rnbqkbnr/pppp1ppp/8/4p3/6P1/5P2/PPPPP2P/RNBQKBNR b KQkq - 0 2"
       "d8h4")
  = Ok [ ("fen",
          VStr "rnb1kbnr/pppp1ppp/8/4p3/6Pq/5P2/PPPPP2P/RNBQKBNR w KQkq - 1 3");
         ("valid", VBool true);
         ("legal_moves", VList []);
         ("is_check", VBool true);
         ("is_checkmate", VBool true);
         ("is_stalemate", VBool false);
         ("is_game_over", VBool true) ]
  /\ forall m : string,
       @make_move PyChessEngine
         (mkMoveRequest
            "rnb1kbnr/pppp1ppp/8/4p3/6Pq/5P2/PPPPP2P/RNBQKBNR w KQkq - 1 3" m)
       = Ok [ ("fen",
               VStr "rnb1kbnr/pppp1ppp/8/4p3/6Pq/5P2/PPPPP2P/RNBQKBNR w KQkq - 1 3");
              ("valid", VBool false);
              ("legal_moves", VList []);
              ("is_check", VBool true);
              ("is_checkmate", VBool true);
              ("is_stalemate", VBool false);
              ("is_game_over", VBool true) ].
Proof.
  split; [vm_compute; reflexivity|].
  intros m. destruct fools_mate_position as (board & Hboard & Hnone & Hstate).
  match goal with
  | |- make_move ?req = _ =>
      rewrite (@make_move_fallback PyChessEngine req board Hboard)
  end.
  - rewrite Hstate. reflexivity.
  - intros move Hmove.
    exact (PyChessFacts.no_uci_move_legal board Hnone m move Hmove).
Qed.

(** C10.  On the chess engine the four literal flags of GET /reset are
    the values the four queries return on the starting board: the handler
    and its variant that queries the board return the same response. *)
Theorem reset_game_flags_as_queried :
  @reset_game PyChessEngine = @reset_game_queried PyChessEngine
  /\ PyChess.is_check PyChess.reset = false
  /\ PyChess.is_checkmate PyChess.reset = false
  /\ PyChess.is_stalemate PyChess.reset = false
  /\ PyChess.is_game_over PyChess.reset = false.
Proof.
  assert (Hc : PyChess.is_check PyChess.reset = false)
    by (vm_compute; reflexivity).
  assert (Hm : PyChess.is_checkmate PyChess.reset = false)
    by (vm_compute; reflexivity).
  assert (Hs : PyChess.is_stalemate PyChess.reset = false)
    by (vm_compute; reflexivity).
  assert (Hg : PyChess.is_game_over PyChess.reset = false)
    by (vm_compute; reflexivity).
  split; [|now repeat split].
  exact (reset_game_queried_eq PyChessEngine Hc Hm Hs Hg).
Qed.

(** X3.  On the chess engine, for a position given as ASCII text and a
    legal move: when the board after the move can be written, POST /move
    returns that FEN, and its second field is the other side's letter. *)
Theorem make_move_turn_field (req : MoveRequest) (board : PyChess.Board)
    (move : PyChess.Move) (new_fen : string) :
  PyChess.is_ascii (mr_fen req) = true ->
  PyChess.Board_ (mr_fen req) = Ok board ->
  PyChess.from_uci (mr_move req) = Ok move ->
  PyChess.is_legal board move = true ->
  PyChess.fen (PyChess.push board move) = Ok new_fen ->
  exists (response : body) (board_part : string) (rest : list string),
    @make_move PyChessEngine req = Ok response
    /\ get "valid" response = Some (VBool true)
    /\ get "fen" response = Some (VStr new_fen)
    /\ PyChess.split new_fen
       = board_part
           :: PyChess.turn_symbol (negb (PyChess.turn board)) :: rest.
Proof.
  intros _ Hboard Hmove Hlegal Hfen.
  destruct (PyChessFacts.fen_split (PyChess.push board move) new_fen Hfen)
    as [rest Hsplit].
  rewrite (PyChessFacts.push_turn board move Hlegal) in Hsplit.
  do 2 eexists. exists rest.
  split; [exact (@make_move_pushed PyChessEngine req board move new_fen
                   Hboard Hmove Hlegal Hfen)|].
  split; [reflexivity|]. split; [reflexivity | exact Hsplit].
Qed.

(** ** The properties at concrete requests *)


(** C2 at the position after 1. e4, written with the en passant square
    e3, and the move e7e4, which no piece can make: the [fen] field is the
    input, although the board itself would be written with a dash there
    (no en passant capture is possible). *)
Lemma make_move_illegal_witness :
  @make_move PyChessEngine
    (mkMoveRequest
       "rnbqkbnr/pppppppp/8/8/4P3/8/PPPP1PPP/RNBQKBNR b KQkq e3 0 1" "e7e4")
  = Ok [ ("fen",
          VStr "rnbqkbnr/pppppppp/8/8/4P3/8/PPPP1PPP/RNBQKBNR b KQkq e3 0 1");
         ("valid", VBool false);
         ("legal_moves",
          VList [ "g8h6"; "g8f6"; "b8c6"; "b8a6"; "h7h6"; "g7g6"; "f7f6";
                  "e7e6"; "d7d6"; "c7c6"; "b7b6"; "a7a6"; "h7h5"; "g7g5";
                  "f7f5"; "e7e5"; "d7d5"; "c7c5"; "b7b5"; "a7a5" ]);
         ("is_check", VBool false);
         ("is_checkmate", VBool false);
         ("is_stalemate", VBool false);
         ("is_game_over", VBool false) ].
Proof.
  destruct (PyChess.Board_
              "rnbqkbnr/pppppppp/8/8/4P3/8/PPPP1PPP/RNBQKBNR b KQkq e3 0 1")
    as [board|] eqn:Hboard; [|vm_compute in Hboard; discriminate Hboard].
  refine (eq_trans
            (@make_move_illegal PyChessEngine
               (mkMoveRequest
                  "rnbqkbnr/pppppppp/8/8/4P3/8/PPPP1PPP/RNBQKBNR b KQkq e3 0 1"
                  "e7e4")
               board Hboard _) _).
  - intros move Hmove. vm_compute in Hmove. injection Hmove as <-.
    vm_compute in Hboard. injection Hboard as <-.
    vm_compute. reflexivity.
  - vm_compute in Hboard. injection Hboard as <-.
    vm_compute. reflexivity.
Defined.

(** C3 at the string "invalid-fen-string". *)
Lemma make_move_unparsed_position_witness :
  @make_move PyChessEngine (mkMoveRequest "invalid-fen-string" "e2e4")
  = Raise ValueError
  /\ forall response,
       @make_move PyChessEngine (mkMoveRequest "invalid-fen-string" "e2e4")
       <> Ok response.
Proof.
  apply (@make_move_unparsed_position PyChessEngine
           (mkMoveRequest "invalid-fen-string" "e2e4") ValueError).
  vm_compute. reflexivity.
Defined.

(** C4 at "invalid-fen-string" and at a stalemate position. *)
Lemma get_fen_info_spec_witness :
  @get_fen_info PyChessEngine (mkFenRequest "invalid-fen-string")
  = Ok [ ("valid", VBool false); ("error", VStr "Invalid FEN") ]
  /\ @get_fen_info PyChessEngine (mkFenRequest "7k/5Q2/6K1/8/8/8/8/8 b - - 0 1")
     = Ok [ ("valid", VBool true);
            ("legal_moves", VList []);
            ("is_check", VBool false);
            ("is_checkmate", VBool false);
            ("is_stalemate", VBool true);
            ("is_game_over", VBool true) ].
Proof.
  split.
  - destruct (@get_fen_info_spec PyChessEngine
                (mkFenRequest "invalid-fen-string")) as (_ & Hbad & _).
    apply (Hbad ValueError). vm_compute. reflexivity.
  - destruct (@get_fen_info_spec PyChessEngine
                (mkFenRequest "7k/5Q2/6K1/8/8/8/8/8 b - - 0 1"))
      as (_ & _ & Hgood).
    destruct (PyChess.Board_ "7k/5Q2/6K1/8/8/8/8/8 b - - 0 1")
      as [board|] eqn:Hboard; [|vm_compute in Hboard; discriminate Hboard].
    rewrite (Hgood board Hboard).
    vm_compute in Hboard. injection Hboard as <-.
    vm_compute. reflexivity.
Defined.


(** C8 on a run that posts the starting position before and after a
    move request that pushes a move on its own board, started on a heap
    that already holds a board. *)
Lemma get_fen_info_idempotent_witness :
  let req :=
    mkFenRequest "rnbqkbnr/pppppppp/8/8/8/8/PPPPPPPP/RNBQKBNR w KQkq - 0 1" in
  let trace :=
    [ PostFen req;
      PostMove
        (mkMoveRequest
           "rnbqkbnr/pppppppp/8/8/8/8/PPPPPPPP/RNBQKBNR w KQkq - 0 1" "e2e4");
      GetReset;
      PostFen req ] in
  let h : @heap PyChessEngine := [PyChess.reset] in
  nth_error (fst (serve_on trace h)) 0 = nth_error (fst (serve_on trace h)) 3
  /\ nth_error (fst (serve_on trace h)) 0
     = Some (fst (get_fen_info_on req []))
  /\ (forall h', fst (get_fen_info_on req h') = fst (get_fen_info_on req h))
  /\ exists allocated, snd (serve_on trace h) = (h ++ allocated)%list.
Proof.
  intros req trace h.
  apply (@get_fen_info_idempotent PyChessEngine trace h 0 3 req); reflexivity.
Defined.

(** C9 at a stalemate: the response of POST /fen reports game over and
    no legal move. *)
Lemma terminal_flags_consistent_witness :
  exists response : body,
    @handle PyChessEngine
      (PostFen (mkFenRequest "7k/5Q2/6K1/8/8/8/8/8 b - - 0 1"))
    = Ok response
    /\ get "is_stalemate" response = Some (VBool true)
    /\ get "is_game_over" response = Some (VBool true)
    /\ get "legal_moves" response = Some (VList []).
Proof.
  eexists. split; [vm_compute; reflexivity|].
  split; [reflexivity|].
  refine (proj2 (@terminal_flags_consistent PyChessEngine PyChessLaws
                   (PostFen (mkFenRequest "7k/5Q2/6K1/8/8/8/8/8 b - - 0 1"))
                   _ _) _);
    [vm_compute; reflexivity | reflexivity].
Defined.

(** C9 does not extend to [is_game_over]: with the two bare kings the
    game is over (insufficient material) and the response still offers
    three legal moves. *)
Lemma game_over_with_legal_moves :
  exists response : body,
    @handle PyChessEngine (PostFen (mkFenRequest "8/8/8/8/8/8/8/K6k w - - 0 1"))
    = Ok response
    /\ get "is_game_over" response = Some (VBool true)
    /\ get "is_checkmate" response = Some (VBool false)
    /\ get "is_stalemate" response = Some (VBool false)
    /\ get "legal_moves" response = Some (VList ["a1b2"; "a1a2"; "a1b1"]).
Proof.
  eexists. split; [vm_compute; reflexivity|].
  repeat split; reflexivity.
Qed.




(** X1 at the starting position, written in full and without its two
    counters. *)
Lemma get_fen_info_of_board_witness :
  @get_fen_info PyChessEngine
    (mkFenRequest "rnbqkbnr/pppppppp/8/8/8/8/PPPPPPPP/RNBQKBNR w KQkq - 0 1")
  = @get_fen_info PyChessEngine
      (mkFenRequest "rnbqkbnr/pppppppp/8/8/8/8/PPPPPPPP/RNBQKBNR w KQkq -").
Proof.
  apply (@get_fen_info_of_board PyChessEngine _ _ PyChess.reset);
    vm_compute; reflexivity.
Defined.

(** X2 at the starting position with the move string "castle", which
    does not parse. *)
Lemma make_move_valid_iff_witness :
  let req :=
    mkMoveRequest
      "rnbqkbnr/pppppppp/8/8/8/8/PPPPPPPP/RNBQKBNR w KQkq - 0 1" "castle" in
  exists response,
    @make_move PyChessEngine req = Ok response
    /\ (get "valid" response = Some (VBool true)
        <-> exists move new_fen,
              Move_from_uci (mr_move req) = Ok move
              /\ legal_moves_contains PyChess.reset move = true
              /\ Board_fen (Board_push PyChess.reset move) = Ok new_fen)
    /\ (get "valid" response = Some (VBool true)
        \/ (get "valid" response = Some (VBool false)
            /\ get "fen" response = Some (VStr (mr_fen req)))).
Proof.
  intros req.
  apply (@make_move_valid_iff PyChessEngine req PyChess.reset).
  vm_compute. reflexivity.
Defined.

(** X3 at the starting position with e2e4: the second field is "b". *)
Lemma make_move_turn_field_witness :
  let req :=
    mkMoveRequest
      "rnbqkbnr/pppppppp/8/8/8/8/PPPPPPPP/RNBQKBNR w KQkq - 0 1" "e2e4" in
  let new_fen :=
    "rnbqkbnr/pppppppp/8/8/4P3/8/PPPP1PPP/RNBQKBNR b KQkq - 0 1" in
  exists (response : body) (board_part : string) (rest : list string),
    @make_move PyChessEngine req = Ok response
    /\ get "valid" response = Some (VBool true)
    /\ get "fen" response = Some (VStr new_fen)
    /\ PyChess.split new_fen
       = board_part
           :: PyChess.turn_symbol (negb (PyChess.turn PyChess.reset)) :: rest.
Proof.
  intros req new_fen.
  apply (make_move_turn_field req PyChess.reset (PyChess.Move_ 12%Z 28%Z)
           new_fen);
    vm_compute; reflexivity.
Defined.

#[export] Instance PyChessCheckLaws : RulesEngineCheckLaws PyChessEngine.
Proof.
  split.
  - exact PyChessFacts.is_checkmate_in_check.
  - exact PyChessFacts.is_stalemate_not_in_check.
Qed.

(** * The service as a whole *)

Section ServiceProperties.

Context {E : RulesEngine}.

(** X4.  The only request the service answers with an exception is a
    POST /move whose position does not parse, and the exception is the
    one the parser raised. *)
Theorem handle_raises_iff (r : request) (e : exn) :
  handle r = Raise e
  <-> exists req, r = PostMove req /\ Board_new (mr_fen req) = Raise e.
Proof.
  split.
  - destruct r as [req|req|]; cbn [handle].
    + intros H. exists req. split; [reflexivity|].
      unfold make_move in H.
      destruct (Board_new (mr_fen req)) as [board|e'];
        [|now injection H as ->].
      destruct (make_move_try req board); discriminate H.
    + unfold get_fen_info.
      destruct (Board_new (fr_fen req)); discriminate.
    + unfold reset_game. cbv zeta.
      destruct (@Board_init_fen_ok E) as [fen Hfen]. rewrite Hfen.
      discriminate.
  - intros (req & -> & H). cbn [handle]. unfold make_move. now rewrite H.
Qed.

(** X5.  POST /fen and POST /move agree on which positions are usable:
    /fen reports [valid: true] for a position exactly when /move returns
    a body for it, whatever the move string. *)
Theorem fen_valid_iff_move_answers (position move : string) :
  (exists response,
     get_fen_info (mkFenRequest position) = Ok response
     /\ get "valid" response = Some (VBool true))
  <-> (exists response,
         make_move (mkMoveRequest position move) = Ok response).
Proof.
  unfold get_fen_info, make_move. cbn [fr_fen mr_fen].
  destruct (Board_new position) as [board|e]; split.
  - intros _.
    destruct (make_move_try (mkMoveRequest position move) board);
      eexists; reflexivity.
  - intros _. eexists. split; reflexivity.
  - intros (response & H & Hvalid). injection H as <-. discriminate Hvalid.
  - intros (response & H). discriminate H.
Qed.

(** X6.  A POST /move that is answered [valid: false] carries the input
    position as [fen], followed by the legal moves and state flags of one
    board.  Either no move was pushed (the move string did not parse, or
    its move is not in the legal-move set) and these are the entries POST
    /fen returns for the same position; or a legal move was pushed,
    [fen()] of the new board raised, and they are the legal moves and
    flags of the board after the move. *)
Theorem make_move_fallback_is_fen_info (req : MoveRequest) (response : body) :
  make_move req = Ok response ->
  get "valid" response = Some (VBool false) ->
  exists board snapshot,
    Board_new (mr_fen req) = Ok board
    /\ response
       = ("fen", VStr (mr_fen req)) :: ("valid", VBool false) :: snapshot
    /\ ((get_fen_info (mkFenRequest (mr_fen req))
          = Ok (("valid", VBool true) :: snapshot)
         /\ forall move, Move_from_uci (mr_move req) = Ok move ->
                         legal_moves_contains board move = false)
        \/ (exists move e,
              Move_from_uci (mr_move req) = Ok move
              /\ legal_moves_contains board move = true
              /\ Board_fen (Board_push board move) = Raise e
              /\ snapshot = state_fields (Board_push board move))).
Proof.
  unfold make_move, get_fen_info, make_move_try. cbn [fr_fen].
  destruct (Board_new (mr_fen req)) as [board|e]; [|discriminate].
  intros H Hvalid. exists board.
  destruct (Move_from_uci (mr_move req)) as [move|e] eqn:Hmove.
  - destruct (legal_moves_contains board move) eqn:Hlegal.
    + destruct (Board_fen (Board_push board move)) as [new_fen|e] eqn:Hfen;
        injection H as <-; [discriminate Hvalid|].
      eexists. split; [reflexivity|]. split; [reflexivity|].
      right. exists move, e. now repeat split.
    + injection H as <-. eexists. split; [reflexivity|].
      split; [reflexivity|]. left. split; [reflexivity|].
      intros move' Hmove'. congruence.
  - injection H as <-. eexists. split; [reflexivity|].
    split; [reflexivity|]. left. split; [reflexivity|].
    intros move' Hmove'. discriminate Hmove'.
Qed.

(** X7.  The shape of every body: POST /move has the seven keys [fen],
    [valid] and the five state keys; POST /fen has [valid] and the five
    state keys, or [valid] and [error] alone; GET /reset has [fen] and
    the five state keys and no [valid].  No body repeats a key. *)
Theorem response_keys (r : request) (response : body) :
  handle r = Ok response ->
  NoDup (keys response)
  /\ match r with
     | PostMove _ => keys response = "fen" :: "valid" :: state_keys
     | PostFen _ =>
         (get "valid" response = Some (VBool true)
          /\ keys response = "valid" :: state_keys)
         \/ (get "valid" response = Some (VBool false)
             /\ keys response = ["valid"; "error"])
     | GetReset => keys response = "fen" :: state_keys
     end.
Proof.
  assert (Hnodup : NoDup ("fen" :: "valid" :: "error" :: state_keys)).
  { unfold state_keys.
    repeat (constructor; [cbn [In]; intuition discriminate|]).
    constructor. }
  intros H. destruct r as [req|req|]; cbn [handle] in H.
  - unfold make_move, make_move_try in H.
    destruct (Board_new (mr_fen req)) as [board|]; [|discriminate H].
    assert (Hk : keys response = "fen" :: "valid" :: state_keys).
    { destruct (Move_from_uci (mr_move req)) as [move|];
        [destruct (legal_moves_contains board move);
         [destruct (Board_fen (Board_push board move))|]|];
        injection H as <-; reflexivity. }
    split; [|exact Hk]. rewrite Hk.
    inversion Hnodup as [|? ? Hf Hrest]; subst.
    inversion Hrest as [|? ? Hv Hrest2]; subst.
    inversion Hrest2 as [|? ? He Hstate]; subst.
    constructor; [cbn [In] in *; intuition|].
    constructor; [cbn [In] in *; intuition | exact Hstate].
  - unfold get_fen_info in H.
    destruct (Board_new (fr_fen req)) as [board|]; injection H as <-.
    + split; [|left; split; reflexivity].
      change (NoDup ("valid" :: state_keys)).
      inversion Hnodup as [|? ? Hf Hrest]; subst.
      inversion Hrest as [|? ? Hv Hrest2]; subst.
      inversion Hrest2 as [|? ? He Hstate]; subst.
      constructor; [cbn [In] in *; intuition | exact Hstate].
    + split; [|right; split; reflexivity].
      change (NoDup ["valid"; "error"]).
      repeat (constructor; [cbn [In]; intuition discriminate|]).
      constructor.
  - unfold reset_game in H. cbv zeta in H.
    destruct (Board_fen Board_init); [|discriminate H].
    injection H as <-.
    split; [|reflexivity].
    change (NoDup ("fen" :: state_keys)).
    inversion Hnodup as [|? ? Hf Hrest]; subst.
    inversion Hrest as [|? ? Hv Hrest2]; subst.
    inversion Hrest2 as [|? ? He Hstate]; subst.
    constructor; [cbn [In] in *; intuition | exact Hstate].
Qed.

(** X9.  Check and the terminal flags in one response: [is_checkmate:
    true] comes with [is_check: true] and [is_stalemate: false], and
    [is_stalemate: true] with [is_check: false] and [is_checkmate:
    false]; no response reports both a checkmate and a stalemate. *)
Theorem check_flags_consistent {L : RulesEngineCheckLaws E}
    (r : request) (response : body) :
  handle r = Ok response ->
  (get "is_checkmate" response = Some (VBool true) ->
   get "is_check" response = Some (VBool true)
   /\ get "is_stalemate" response = Some (VBool false))
  /\ (get "is_stalemate" response = Some (VBool true) ->
      get "is_check" response = Some (VBool false)
      /\ get "is_checkmate" response = Some (VBool false)).
Proof.
  assert (Hboard : forall (board : BoardT) (prefix : body),
            (forall k v, In (k, v) prefix -> k = "fen" \/ k = "valid") ->
            let resp := (prefix ++ state_fields board)%list in
            (get "is_checkmate" resp = Some (VBool true) ->
             get "is_check" resp = Some (VBool true)
             /\ get "is_stalemate" resp = Some (VBool false))
            /\ (get "is_stalemate" resp = Some (VBool true) ->
                get "is_check" resp = Some (VBool false)
                /\ get "is_checkmate" resp = Some (VBool false))).
  { intros board prefix Hprefix resp.
    assert (Hget : forall k, In k state_keys ->
              get k resp = get k (state_fields board)).
    { intros k Hk. subst resp.
      induction prefix as [|[k' v] prefix IH]; [reflexivity|].
      cbn [app get]. destruct (String.eqb_spec k k') as [->|_].
      - exfalso. destruct (Hprefix k' v (or_introl eq_refl)) as [->| ->];
          cbn [In state_keys] in Hk; intuition discriminate.
      - apply IH. intros k0 v0 H0. apply (Hprefix k0 v0). now right. }
    rewrite !Hget by (unfold state_keys; cbn [In]; tauto).
    unfold state_fields; cbn [get String.eqb Ascii.eqb Bool.eqb].
    pose proof (checkmate_in_check board) as Hmate.
    pose proof (stalemate_not_in_check board) as Hstale.
    destruct (Board_is_checkmate board), (Board_is_stalemate board),
      (Board_is_check board);
      split; intros H; try discriminate H; split;
      try reflexivity;
      try (specialize (Hmate eq_refl); discriminate Hmate);
      try (specialize (Hstale eq_refl); discriminate Hstale). }
  intros Hr. destruct r as [req|req|]; cbn [handle] in Hr.
  - unfold make_move, make_move_try in Hr.
    destruct (Board_new (mr_fen req)) as [board|]; [|discriminate Hr].
    destruct (Move_from_uci (mr_move req)) as [move|];
      [destruct (legal_moves_contains board move);
       [destruct (Board_fen (Board_push board move))|]|];
      injection Hr as <-;
      match goal with
      | |- context [state_fields ?b] =>
          apply (Hboard b [(_, _); (_, _)]);
          intros k v [H|[H|[]]]; injection H as <- <-; tauto
      end.
  - unfold get_fen_info in Hr.
    destruct (Board_new (fr_fen req)) as [board|]; injection Hr as <-.
    + apply (Hboard board [(_, _)]).
      intros k v [H|[]]; injection H as <- <-; tauto.
    + split; discriminate.
  - unfold reset_game in Hr. cbv zeta in Hr.
    destruct (Board_fen Board_init); [|discriminate Hr].
    injection Hr as <-. split; discriminate.
Qed.

(** X10.  A response that says the game is not over offers a move: with
    [is_game_over: false] the [legal_moves] list is not empty.  For
    GET /reset, whose flag is a literal, this needs the starting board to
    have a legal move. *)
Theorem not_over_offers_move {L : RulesEngineLaws E}
    (r : request) (response : body) :
  legal_moves_iter Board_init <> [] ->
  handle r = Ok response ->
  get "is_game_over" response = Some (VBool false) ->
  exists u rest, get "legal_moves" response = Some (VList (u :: rest)).
Proof.
  assert (Hboard : forall board : BoardT,
            Board_is_game_over board = false ->
            exists u rest,
              map Move_uci (legal_moves_iter board) = u :: rest).
  { intros board Hover.
    destruct (legal_moves_iter board) as [|m ms] eqn:Hmoves.
    - rewrite (no_moves_game_over board Hmoves) in Hover. discriminate Hover.
    - cbn [map]. eauto. }
  intros Hstart Hr Hover. destruct r as [req|req|]; cbn [handle] in Hr.
  - unfold make_move, make_move_try in Hr.
    destruct (Board_new (mr_fen req)) as [board|]; [|discriminate Hr].
    destruct (Move_from_uci (mr_move req)) as [move|];
      [destruct (legal_moves_contains board move);
       [destruct (Board_fen (Board_push board move))|]|];
      injection Hr as <-;
      cbn [get state_fields String.eqb Ascii.eqb Bool.eqb] in Hover |- *;
      injection Hover as Hover;
      match goal with
      | H : Board_is_game_over ?b = false |- _ =>
          destruct (Hboard b H) as (u & rest & ->)
      end; eauto.
  - unfold get_fen_info in Hr.
    destruct (Board_new (fr_fen req)) as [board|]; injection Hr as <-;
      [|discriminate Hover].
    cbn [get state_fields String.eqb Ascii.eqb Bool.eqb] in Hover |- *.
    injection Hover as Hover.
    destruct (Hboard board Hover) as (u & rest & ->). eauto.
  - unfold reset_game in Hr. cbv zeta in Hr.
    destruct (Board_fen Board_init); [|discriminate Hr].
    injection Hr as <-.
    cbn [get String.eqb Ascii.eqb Bool.eqb].
    destruct (legal_moves_iter Board_init) as [|m ms];
      [now elim Hstart | cbn [map]; eauto].
Qed.

End ServiceProperties.

(** * More of the service on the chess engine *)

(** X11.  UCI strings and moves round trip.  A move string that parses
    to a move other than a drop is the UCI string of that move; and a
    move between two different squares of the board, with or without a
    promotion piece, is read back from its UCI string. *)
Theorem uci_round_trip :
  (forall (s : string) (m : PyChess.Move),
     PyChess.from_uci s = Ok m -> PyChess.drop m = None ->
     PyChess.uci m = s)
  /\ (forall m : PyChess.Move,
        In (PyChess.from_square m) PyChess.SQUARES ->
        In (PyChess.to_square m) PyChess.SQUARES ->
        PyChess.from_square m <> PyChess.to_square m ->
        PyChess.drop m = None ->
        PyChess.from_uci (PyChess.uci m) = Ok m).
Proof.
  split.
  - exact PyChessFacts.uci_from_uci.
  - exact PyChessFacts.from_uci_uci.
Qed.

(** X12.  Positions, given as ASCII text, that the parser rejects by
    their shape: a string of whitespace only (the empty string included),
    more than six fields, a second field other than "w" or "b", or a
    first field that does not have eight rows.  POST /fen answers each
    with the error body, POST /move with a [ValueError], whatever the
    move string. *)
Theorem malformed_position_rejected (position : string) :
  PyChess.is_ascii position = true ->
  (PyChess.all_space position = true
   \/ (6 < List.length (PyChess.split position))%nat
   \/ (exists board_part turn_part rest,
         PyChess.split position = board_part :: turn_part :: rest
         /\ turn_part <> "w" /\ turn_part <> "b")
   \/ (exists board_part rest,
         PyChess.split position = board_part :: rest
         /\ List.length (PyChess.split_on "/" board_part) <> 8%nat)) ->
  @get_fen_info PyChessEngine (mkFenRequest position)
  = Ok [ ("valid", VBool false); ("error", VStr "Invalid FEN") ]
  /\ forall move,
       @make_move PyChessEngine (mkMoveRequest position move)
       = Raise ValueError.
Proof.
  intros _ Hshape.
  assert (Hparse : PyChess.Board_ position = Raise ValueError).
  { rewrite PyChessFacts.Board_is_set_fen.
    destruct Hshape as [H|[H|[(bp & tp & rest & H & Hw & Hb)
                              |(bp & rest & H & Hrows)]]].
    - apply PyChessFacts.set_fen_no_field.
      exact (PyChessFacts.split_aux_all_space position H).
    - exact (PyChessFacts.set_fen_too_many_fields position H).
    - exact (PyChessFacts.set_fen_bad_turn position bp tp rest H Hw Hb).
    - exact (PyChessFacts.set_fen_bad_rows position bp rest H Hrows). }
  split.
  - unfold get_fen_info. cbn [fr_fen Board_new PyChessEngine].
    now rewrite Hparse.
  - intros move. unfold make_move. cbn [mr_fen Board_new PyChessEngine].
    now rewrite Hparse.
Qed.

(** X13.  Move strings that are never played.  With a position that
    parses, a move string shorter than four or longer than five
    characters (the empty string included), the null move "0000", a drop
    such as "P@e4", and a promotion to a king or a pawn such as "a7a8k"
    are all answered [valid: false] with the input position and the
    state of the board as parsed. *)
Theorem unplayable_move_strings (req : MoveRequest) (board : PyChess.Board) :
  PyChess.Board_ (mr_fen req) = Ok board ->
  ((String.length (mr_move req) < 4)%nat
   \/ (5 < String.length (mr_move req))%nat
   \/ exists m,
        PyChess.from_uci (mr_move req) = Ok m
        /\ (PyChess.Move_bool m = false
            \/ PyChess.drop m <> None
            \/ PyChess.playable_promotion (PyChess.promotion m) = false)) ->
  @make_move PyChessEngine req
  = Ok [ ("fen", VStr (mr_fen req));
         ("valid", VBool false);
         ("legal_moves",
          VList (map PyChess.uci (PyChess.legal_moves board)));
         ("is_check", VBool (PyChess.is_check board));
         ("is_checkmate", VBool (PyChess.is_checkmate board));
         ("is_stalemate", VBool (PyChess.is_stalemate board));
         ("is_game_over", VBool (PyChess.is_game_over board)) ].
Proof.
  intros Hboard Hmove.
  apply (@make_move_fallback PyChessEngine req board Hboard).
  cbn [Move_from_uci legal_moves_contains PyChessEngine].
  intros m Hm.
  destruct Hmove as [Hshort|[Hlong|(m' & Hm' & Hkind)]].
  - pose proof (PyChessFacts.from_uci_length _ _ Hm). lia.
  - pose proof (PyChessFacts.from_uci_length _ _ Hm). lia.
  - rewrite Hm in Hm'. injection Hm' as <-.
    destruct Hkind as [Hnull|[Hdrop|Hpromo]].
    + exact (PyChessFacts.is_legal_null board m Hnull).
    + exact (PyChessFacts.is_legal_drop board m Hdrop).
    + exact (PyChessFacts.is_legal_promotion board m Hpromo).
Qed.

(** ** The further properties at concrete requests *)

(** X6 at the starting position with e2e5. *)
Lemma make_move_fallback_is_fen_info_witness :
  let req :=
    mkMoveRequest
      "rnbqkbnr/pppppppp/8/8/8/8/PPPPPPPP/RNBQKBNR w KQkq - 0 1" "e2e5" in
  exists response board snapshot,
    @make_move PyChessEngine req = Ok response
    /\ Board_new (mr_fen req) = Ok board
    /\ response
       = ("fen", VStr (mr_fen req)) :: ("valid", VBool false) :: snapshot
    /\ ((@get_fen_info PyChessEngine (mkFenRequest (mr_fen req))
          = Ok (("valid", VBool true) :: snapshot)
         /\ forall move, Move_from_uci (mr_move req) = Ok move ->
                         legal_moves_contains board move = false)
        \/ (exists move e,
              Move_from_uci (mr_move req) = Ok move
              /\ legal_moves_contains board move = true
              /\ Board_fen (Board_push board move) = Raise e
              /\ snapshot = state_fields (Board_push board move))).
Proof.
  intros req.
  assert (Hr : exists response,
             @make_move PyChessEngine req = Ok response
             /\ get "valid" response = Some (VBool false))
    by (eexists; split; vm_compute; reflexivity).
  destruct Hr as (response & Hr & Hvalid).
  destruct (@make_move_fallback_is_fen_info PyChessEngine req response
              Hr Hvalid) as (board & snapshot & H).
  exists response, board, snapshot. split; [exact Hr | exact H].
Defined.

(** X7 at POST /fen with "invalid-fen-string". *)
Lemma response_keys_witness :
  exists response,
    @handle PyChessEngine (PostFen (mkFenRequest "invalid-fen-string"))
    = Ok response
    /\ NoDup (keys response)
    /\ ((get "valid" response = Some (VBool true)
         /\ keys response = "valid" :: state_keys)
        \/ (get "valid" response = Some (VBool false)
            /\ keys response = ["valid"; "error"])).
Proof.
  assert (Hr : exists response,
             @handle PyChessEngine
               (PostFen (mkFenRequest "invalid-fen-string")) = Ok response)
    by (eexists; vm_compute; reflexivity).
  destruct Hr as (response & Hr).
  exists response. split; [exact Hr|].
  exact (@response_keys PyChessEngine
           (PostFen (mkFenRequest "invalid-fen-string")) response Hr).
Defined.

(** X9 at the mated position of fool's mate. *)
Lemma check_flags_consistent_witness :
  exists response : body,
    @handle PyChessEngine
      (PostFen
         (mkFenRequest
            "rnb1kbnr/pppp1ppp/8/4p3/6Pq/5P2/PPPPP2P/RNBQKBNR w KQkq - 1 3"))
    = Ok response
    /\ get "is_checkmate" response = Some (VBool true)
    /\ get "is_check" response = Some (VBool true)
    /\ get "is_stalemate" response = Some (VBool false).
Proof.
  eexists. split; [vm_compute; reflexivity|].
  split; [reflexivity|].
  refine (proj1 (@check_flags_consistent PyChessEngine PyChessCheckLaws
                   (PostFen
                      (mkFenRequest
                         "rnb1kbnr/pppp1ppp/8/4p3/6Pq/5P2/PPPPP2P/RNBQKBNR w KQkq - 1 3"))
                   _ _) _);
    [vm_compute; reflexivity | reflexivity].
Defined.

(** X10 at GET /reset. *)
Lemma not_over_offers_move_witness :
  exists response,
    @handle PyChessEngine GetReset = Ok response
    /\ exists u rest, get "legal_moves" response = Some (VList (u :: rest)).
Proof.
  eexists. split; [vm_compute; reflexivity|].
  eapply (@not_over_offers_move PyChessEngine PyChessLaws GetReset).
  - vm_compute. discriminate.
  - vm_compute. reflexivity.
  - reflexivity.
Defined.

(** X11 at e7e8q and e2e4. *)
Lemma uci_round_trip_witness :
  PyChess.uci (PyChess.mkMove 52%Z 60%Z (Some PyChess.QUEEN) None) = "e7e8q"
  /\ PyChess.from_uci (PyChess.uci (PyChess.Move_ 12%Z 28%Z))
     = Ok (PyChess.Move_ 12%Z 28%Z).
Proof.
  split.
  - apply (proj1 uci_round_trip "e7e8q"); vm_compute; reflexivity.
  - apply (proj2 uci_round_trip).
    + vm_compute. repeat (first [left; reflexivity | right]).
    + vm_compute. repeat (first [left; reflexivity | right]).
    + vm_compute. discriminate.
    + reflexivity.
Defined.

(** X12 at the empty string. *)
Lemma malformed_position_rejected_witness :
  @get_fen_info PyChessEngine (mkFenRequest EmptyString)
  = Ok [ ("valid", VBool false); ("error", VStr "Invalid FEN") ]
  /\ forall move,
       @make_move PyChessEngine (mkMoveRequest EmptyString move)
       = Raise ValueError.
Proof.
  apply (malformed_position_rejected EmptyString); [reflexivity|].
  left. reflexivity.
Defined.

(** X13 at a pawn on the seventh rank and the move a7a8k. *)
Lemma unplayable_move_strings_witness :
  @make_move PyChessEngine (mkMoveRequest "7k/P7/8/8/8/8/8/K7 w - - 0 1" "a7a8k")
  = Ok [ ("fen", VStr "7k/P7/8/8/8/8/8/K7 w - - 0 1");
         ("valid", VBool false);
         ("legal_moves",
          VList ["a1b2"; "a1a2"; "a1b1"; "a7a8q"; "a7a8r"; "a7a8b"; "a7a8n"]);
         ("is_check", VBool false);
         ("is_checkmate", VBool false);
         ("is_stalemate", VBool false);
         ("is_game_over", VBool false) ].
Proof.
  destruct (PyChess.Board_ "7k/P7/8/8/8/8/8/K7 w - - 0 1")
    as [board|] eqn:Hboard; [|vm_compute in Hboard; discriminate Hboard].
  refine (eq_trans
            (unplayable_move_strings
               (mkMoveRequest "7k/P7/8/8/8/8/8/K7 w - - 0 1" "a7a8k")
               board Hboard _) _).
  - right. right.
    exists (PyChess.mkMove 48%Z 56%Z (Some PyChess.KING) None).
    split; [vm_compute; reflexivity|]. right. right. reflexivity.
  - vm_compute in Hboard. injection Hboard as <-.
    vm_compute. reflexivity.
Defined.
